(** * Explosives in Cyberspace: decompressed lengths

    A shallow embedding of [year2016/day09/solution.py]: the marker scanner
    [get_markers], the per-marker delta [get_length_decompressed_marker] and the
    two length calculators [get_length_decompressed_sequence_part1] (markers
    inside a data region are opaque) and [get_length_decompressed_sequence_part2]
    (data regions are decompressed recursively).

    Modelling choices.
    - A Python [str] is a [list ascii]: characters are code points below 256,
      where the regular expression class [\d] is exactly ['0'..'9'].
    - A Python [int] is a [Z]; nothing wraps.
    - The source has no [raise] of its own.  The two library calls that can
      fail on a string of this alphabet are modelled with CPython's defaults
      (64-bit build, version 3.11 or later): [int] rejects a digit run longer
      than [sys.get_int_max_str_digits()] with [ValueError], and
      [Pattern.search] converts its [pos] argument to a [Py_ssize_t] and
      rejects an [int] above [sys.maxsize] with [OverflowError].
    - The [while] loop and the recursion are driven by fuel; [OutOfFuel] is the
      outcome of a run that was given too little of it, and the functions
      named after the source start with enough (see [get_markers_terminates]
      and [part2_terminates]).  The interpreter's call-stack limit is not
      modelled. *)

From Stdlib Require Import String Ascii ZArith List Lia Bool Sorted.
Import ListNotations.
Open Scope Z_scope.

(** ** Strings, integers and outcomes *)

Definition str := list ascii.

Definition py (s : string) : str := list_ascii_of_string s.

(** [len(s)] *)
Definition len (s : str) : Z := Z.of_nat (length s).

(** The interpreter's limits: [sys.maxsize] and
    [sys.get_int_max_str_digits()]. *)
Module Platform.

Definition maxsize : Z := 2 ^ 63 - 1.

Definition int_max_str_digits : nat := 4300.

End Platform.

Inductive exn : Type := OverflowError | ValueError.

Inductive result (A : Type) : Type :=
| Ok (a : A)
| Raise (e : exn)
| OutOfFuel.

Arguments Ok {A} a.
Arguments Raise {A} e.
Arguments OutOfFuel {A}.

Definition bind {A B : Type} (c : result A) (k : A -> result B) : result B :=
  match c with
  | Ok a => k a
  | Raise e => Raise e
  | OutOfFuel => OutOfFuel
  end.

Notation "x <- c ;; k" := (bind c (fun x => k))
  (at level 61, c at next level, right associativity).

(** [s[a:b]] with CPython's index adjustment: a negative index counts from
    the end, and both indices are clamped to [0, len(s)]. *)
Definition adjust_index (s : str) (i : Z) : Z :=
  if i <? 0 then Z.max 0 (i + len s) else Z.min i (len s).

Definition slice (s : str) (a b : Z) : str :=
  let a' := adjust_index s a in
  let b' := adjust_index s b in
  firstn (Z.to_nat (b' - a')) (skipn (Z.to_nat a') s).

(** ** [int] on a run of decimal digits *)

Definition is_digit (c : ascii) : bool :=
  (48 <=? nat_of_ascii c)%nat && (nat_of_ascii c <=? 57)%nat.

Definition digit_value (c : ascii) : Z := Z.of_nat (nat_of_ascii c) - 48.

Definition decimal (ds : str) : Z :=
  fold_left (fun acc c => 10 * acc + digit_value c) ds 0.

(** [int(group)], only ever applied to a group matched by [\d+]. *)
Definition int (ds : str) : result Z :=
  if (Platform.int_max_str_digits <? length ds)%nat
  then Raise ValueError
  else Ok (decimal ds).

(** ** The pattern [\((\d+)x(\d+)\)] *)

(** The fields of an [re.Match] that the source reads. *)
Record Match : Type := mkMatch {
  match_start : Z;
  match_end : Z;
  group1 : str;
  group2 : str
}.

(** The longest prefix of digits, and what follows it. *)
Fixpoint digits (s : str) : str * str :=
  match s with
  | c :: t =>
      if is_digit c then let (d, r) := digits t in (c :: d, r) else ([], s)
  | [] => ([], [])
  end.

(** The pattern matched at the head of [s], which sits at offset [i].  Neither
    ['x'] nor [')'] is a digit, so the greedy [\d+] can only succeed with the
    whole run of digits: backtracking to a shorter run leaves a digit where
    the pattern wants ['x'] or [')']. *)
Definition match_here (s : str) (i : Z) : option Match :=
  match s with
  | c0 :: s1 =>
      if (c0 =? "(")%char then
        let (g1, r1) := digits s1 in
        match g1, r1 with
        | _ :: _, c1 :: s2 =>
            if (c1 =? "x")%char then
              let (g2, r2) := digits s2 in
              match g2, r2 with
              | _ :: _, c2 :: _ =>
                  if (c2 =? ")")%char
                  then Some (mkMatch i (i + 3 + len g1 + len g2) g1 g2)
                  else None
              | _, _ => None
              end
            else None
        | _, _ => None
        end
      else None
  | [] => None
  end.

(** The leftmost match in [s], whose head sits at offset [i]. *)
Fixpoint search_from (s : str) (i : Z) : option Match :=
  match match_here s i with
  | Some m => Some m
  | None =>
      match s with
      | [] => None
      | _ :: t => search_from t (i + 1)
      end
  end.

(** [marker_pattern.search(s, pos)]: [pos] must fit a [Py_ssize_t], and is
    then clamped to [0, len(s)]. *)
Definition search (s : str) (pos : Z) : result (option Match) :=
  if (Platform.maxsize <? pos) || (pos <? - Platform.maxsize - 1)
  then Raise OverflowError
  else
    let p := Z.max 0 (Z.min pos (len s)) in
    Ok (search_from (skipn (Z.to_nat p) s) p).

(** ** Markers *)

Record Marker : Type := mkMarker {
  start : Z;
  end_ : Z;
  n_chars : Z;
  n_reps : Z
}.

(** [self.length], set by [__post_init__] and never written again. *)
Definition Marker_length (m : Marker) : Z := end_ m - start m.

(** [Marker(start=match.start(), end=match.end(),
            n_chars=int(match.group(1)), n_reps=int(match.group(2)))] *)
Definition Marker_of_match (mt : Match) : result Marker :=
  c <- int (group1 mt) ;;
  r <- int (group2 mt) ;;
  Ok (mkMarker (match_start mt) (match_end mt) c r).

(** The [while match is not None] loop of [get_markers]. *)
Fixpoint get_markers_loop (fuel : nat) (s : str) (mt : option Match)
    (markers : list Marker) : result (list Marker) :=
  match mt with
  | None => Ok markers
  | Some mt0 =>
      match fuel with
      | O => OutOfFuel
      | S fuel' =>
          marker <- Marker_of_match mt0 ;;
          mt' <- search s (end_ marker + n_chars marker) ;;
          get_markers_loop fuel' s mt' (markers ++ [marker])
      end
  end.

Definition get_markers (s : str) : result (list Marker) :=
  mt <- search s 0 ;;
  get_markers_loop (length s) s mt [].

Definition get_length_decompressed_marker (marker : Marker) : Z :=
  n_chars marker * n_reps marker - n_chars marker - Marker_length marker.

(** [sum(...)] over a generator: left to right from 0. *)
Definition sum (l : list Z) : Z := fold_left Z.add l 0.

Definition get_length_decompressed_sequence_part1 (s : str) : result Z :=
  markers <- get_markers s ;;
  Ok (sum (map get_length_decompressed_marker markers) + len s).

(** The data region a marker refers to:
    [compressed_sequence[marker.end : marker.end + marker.n_chars]]. *)
Definition data (s : str) (marker : Marker) : str :=
  slice s (end_ marker) (end_ marker + n_chars marker).

(** One iteration of the [for] loop of part 2, given the recursive call. *)
Definition part2_step (rec : str -> result Z) (s : str)
    (acc : result Z) (marker : Marker) : result Z :=
  a <- acc ;;
  r <- rec (data s marker) ;;
  Ok (a + n_reps marker * r - (n_chars marker + Marker_length marker)).

Fixpoint part2_fuel (fuel : nat) (s : str) : result Z :=
  match fuel with
  | O => OutOfFuel
  | S fuel' =>
      markers <- get_markers s ;;
      fold_left (part2_step (part2_fuel fuel') s) markers (Ok (len s))
  end.

Definition get_length_decompressed_sequence_part2 (s : str) : result Z :=
  part2_fuel (S (length s)) s.

(** ** Predicates of the statements *)

(** A match found at or after offset [p] of [s]: the token has at least five
    characters, lies within [s], and both groups are runs of digits. *)
Definition match_ok (s : str) (p : Z) (mt : Match) : Prop :=
  p <= match_start mt /\
  match_start mt + 5 <= match_end mt /\
  match_end mt <= len s /\
  forallb is_digit (group1 mt) = true /\
  forallb is_digit (group2 mt) = true.

(** What the scanner guarantees of a marker found at or after offset [p]. *)
Definition marker_ok (s : str) (p : Z) (m : Marker) : Prop :=
  p <= start m /\ start m + 5 <= end_ m /\ end_ m <= len s /\
  0 <= n_chars m /\ 0 <= n_reps m.

(** The enumeration that [get_markers] performs, read off the string: search
    from [p]; when a marker is found, go on from its [end + n_chars]. *)
Inductive enumerates (s : str) : Z -> list Marker -> Prop :=
| enum_done (p : Z) :
    search s p = Ok None -> enumerates s p []
| enum_next (p : Z) (mt : Match) (m : Marker) (ms : list Marker) :
    search s p = Ok (Some mt) ->
    Marker_of_match mt = Ok m ->
    enumerates s (end_ m + n_chars m) ms ->
    enumerates s p (m :: ms).

Definition resumes_after (a b : Marker) : Prop := end_ a + n_chars a <= start b.

(** The compressed text a marker stands for: its token and its data. *)
Definition footprint (m : Marker) : Z := n_chars m + Marker_length m.

(** The data region of [m] lies within [s]. *)
Definition in_bounds (s : str) (m : Marker) : bool :=
  end_ m + n_chars m <=? len s.

(** The scan of [s] finds no marker. *)
Definition no_markers (s : str) : bool :=
  match get_markers s with
  | Ok [] => true
  | _ => false
  end.

(** Every marker of [s], and of every data region reached from it, has its
    data within the sequence it was found in. *)
Fixpoint well_formed_fuel (fuel : nat) (s : str) : bool :=
  match fuel with
  | O => false
  | S fuel' =>
      match get_markers s with
      | Ok ms =>
          forallb (fun m => in_bounds s m && well_formed_fuel fuel' (data s m))
                  ms
      | _ => false
      end
  end.

Definition well_formed (s : str) : bool := well_formed_fuel (S (length s)) s.

(** A marker token sits at offset [match_start mt] of [s], and the groups
    of [mt] are its two digit runs. *)
Definition token_at (s : str) (mt : Match) : Prop :=
  0 <= match_start mt /\
  match_end mt = match_start mt + 3 + len (group1 mt) + len (group2 mt) /\
  group1 mt <> [] /\ group2 mt <> [] /\
  forallb is_digit (group1 mt) = true /\
  forallb is_digit (group2 mt) = true /\
  exists rest,
    skipn (Z.to_nat (match_start mt)) s =
    "("%char :: group1 mt ++ "x"%char :: group2 mt ++ ")"%char :: rest.

(** [m] is a token of [s] with its digit runs read as decimal numbers. *)
Definition decodes (s : str) (m : Marker) : Prop :=
  exists mt,
    token_at s mt /\
    m = mkMarker (match_start mt) (match_end mt)
                 (decimal (group1 mt)) (decimal (group2 mt)).

Definition too_long (g : str) : Prop :=
  (Platform.int_max_str_digits < length g)%nat.

(** What makes the scan raise [e] at the token [mt]. *)
Definition raise_cause (mt : Match) (e : exn) : Prop :=
  match e with
  | ValueError => too_long (group1 mt) \/ too_long (group2 mt)
  | OverflowError =>
      Platform.maxsize < match_end mt + decimal (group1 mt)
  end.

(** The scan of [s], started at offset [p], comes to the token [mt]: every
    search before it returned and every marker before it was built. *)
Inductive reaches (s : str) : Z -> Match -> Prop :=
| reaches_here (p : Z) (mt : Match) :
    search s p = Ok (Some mt) -> reaches s p mt
| reaches_later (p : Z) (mt0 : Match) (m : Marker) (mt : Match) :
    search s p = Ok (Some mt0) ->
    Marker_of_match mt0 = Ok m ->
    reaches s (end_ m + n_chars m) mt ->
    reaches s p mt.

(** The text [t] opens with a marker token: ["("], digits, ["x"], digits,
    [")"]. *)
Definition token_here (t : str) : Prop :=
  exists g1 g2 rest,
    g1 <> [] /\ g2 <> [] /\
    forallb is_digit g1 = true /\ forallb is_digit g2 = true /\
    t = "("%char :: g1 ++ "x"%char :: g2 ++ ")"%char :: rest.

(** ** The decompression that the module docstring describes

    The source computes lengths only.  Its docstring says what is measured:
    whitespace is ignored; to decompress a marker, take the subsequent
    [n_chars] characters and repeat them [n_reps] times; the marker itself is
    not part of the output; reading continues after the repeated data; in
    version one the data is taken as it is, in version two it is decompressed
    first. *)

(** [str.isspace] on code points below 256. *)
Definition is_whitespace (c : ascii) : bool :=
  let n := nat_of_ascii c in
  ((9 <=? n)%nat && (n <=? 13)%nat) || ((28 <=? n)%nat && (n <=? 32)%nat)
  || (n =? 133)%nat || (n =? 160)%nat.

(** "Whitespace is ignored." *)
Definition ignore_whitespace (s : str) : str :=
  filter (fun c => negb (is_whitespace c)) s.

Definition no_whitespace (s : str) : bool :=
  forallb (fun c => negb (is_whitespace c)) s.

Fixpoint repeat_str (n : nat) (d : str) : str :=
  match n with
  | O => []
  | S n' => d ++ repeat_str n' d
  end.

(** Read [s], a text without whitespace, from left to right; [rec] is what
    happens to the data of a marker before it is repeated. *)
Fixpoint decompress_walk (rec : str -> str) (fuel : nat) (s : str) : str :=
  match fuel with
  | O => []
  | S fuel' =>
      match s with
      | [] => []
      | c :: t =>
          match match_here s 0 with
          | Some mt =>
              let rest := skipn (Z.to_nat (match_end mt)) s in
              let n := Z.to_nat (decimal (group1 mt)) in
              repeat_str (Z.to_nat (decimal (group2 mt))) (rec (firstn n rest))
              ++ decompress_walk rec fuel' (skipn n rest)
          | None => c :: decompress_walk rec fuel' t
          end
      end
  end.

Definition decompress_part1 (s : str) : str :=
  let t := ignore_whitespace s in
  decompress_walk (fun d => d) (length t) t.

Fixpoint decompress_part2_fuel (fuel : nat) (s : str) : str :=
  match fuel with
  | O => []
  | S fuel' => decompress_walk (decompress_part2_fuel fuel') (length s) s
  end.

Definition decompress_part2 (s : str) : str :=
  let t := ignore_whitespace s in
  decompress_part2_fuel (S (length t)) t.

(** ** Offsets moved by a prefix *)

(** A match, and a marker, found [k] characters further to the right. *)
Definition shift_match (k : Z) (mt : Match) : Match :=
  mkMatch (match_start mt + k) (match_end mt + k) (group1 mt) (group2 mt).

Definition shift_marker (k : Z) (m : Marker) : Marker :=
  mkMarker (start m + k) (end_ m + k) (n_chars m) (n_reps m).

(** ** Strings and slices *)

Lemma len_nonneg (s : str) : 0 <= len s.
Proof. unfold len. lia. Qed.

Lemma len_app (s t : str) : len (s ++ t) = len s + len t.
Proof. unfold len. rewrite length_app. lia. Qed.

Lemma len_cons (c : ascii) (s : str) : len (c :: s) = 1 + len s.
Proof. unfold len. cbn [length]. lia. Qed.

Lemma len_skipn (n : nat) (s : str) :
  len (skipn n s) = len s - Z.of_nat (Nat.min n (length s)).
Proof. unfold len. rewrite length_skipn. lia. Qed.

Lemma slice_length (s : str) (a b : Z) :
  0 <= a <= len s -> a <= b ->
  len (slice s a b) = Z.min (b - a) (len s - a).
Proof.
  intros Ha Hb. unfold slice, adjust_index.
  destruct (Z.ltb_spec a 0) as [Hlt|_]; [lia|].
  destruct (Z.ltb_spec b 0) as [Hlt|_]; [lia|].
  unfold len in *. rewrite length_firstn, length_skipn. lia.
Qed.

Lemma slice_in_bounds (s : str) (a b : Z) :
  0 <= a -> a <= b -> b <= len s -> len (slice s a b) = b - a.
Proof. intros. rewrite slice_length; lia. Qed.

Lemma slice_truncated (s : str) (a b : Z) :
  0 <= a <= len s -> len s <= b -> slice s a b = skipn (Z.to_nat a) s.
Proof.
  intros Ha Hb. unfold slice, adjust_index.
  destruct (Z.ltb_spec a 0) as [Hlt|_]; [lia|].
  destruct (Z.ltb_spec b 0) as [Hlt|_]; [lia|].
  rewrite (Z.min_l a) by lia. rewrite (Z.min_r b) by lia.
  apply firstn_all2. rewrite length_skipn. unfold len in *. lia.
Qed.

(** ** Sums *)

Lemma fold_add_shift (l : list Z) (a : Z) :
  fold_left Z.add l a = a + fold_left Z.add l 0.
Proof.
  revert a. induction l as [|x l IH]; intros a; cbn [fold_left].
  - lia.
  - rewrite (IH (a + x)), (IH (0 + x)). lia.
Qed.

Lemma sum_nil : sum [] = 0.
Proof. reflexivity. Qed.

Lemma sum_cons (x : Z) (l : list Z) : sum (x :: l) = x + sum l.
Proof. unfold sum. cbn [fold_left]. rewrite fold_add_shift. lia. Qed.

Lemma sum_map_le {A : Type} (f g : A -> Z) (l : list A) :
  (forall x, In x l -> f x <= g x) -> sum (map f l) <= sum (map g l).
Proof.
  induction l as [|x l IH]; intros H; cbn [map].
  - lia.
  - rewrite !sum_cons.
    pose proof (H x (or_introl eq_refl)).
    pose proof (IH (fun y Hy => H y (or_intror Hy))). lia.
Qed.

Lemma sum_map_ext {A : Type} (f g : A -> Z) (l : list A) :
  (forall x, In x l -> f x = g x) -> sum (map f l) = sum (map g l).
Proof.
  intros H. apply Z.le_antisymm; apply sum_map_le; intros x Hx;
    rewrite (H x Hx); lia.
Qed.

Lemma sum_map_opp {A : Type} (f : A -> Z) (l : list A) :
  sum (map (fun x => - f x) l) = - sum (map f l).
Proof.
  induction l as [|x l IH]; cbn [map]; [reflexivity|].
  rewrite !sum_cons, IH. lia.
Qed.

Lemma sum_map_nonneg {A : Type} (f : A -> Z) (l : list A) :
  (forall x, In x l -> 0 <= f x) -> 0 <= sum (map f l).
Proof.
  induction l as [|x l IH]; intros H; cbn [map].
  - rewrite sum_nil. lia.
  - rewrite sum_cons.
    pose proof (H x (or_introl eq_refl)).
    pose proof (IH (fun y Hy => H y (or_intror Hy))). lia.
Qed.

(** ** Digit runs *)

Lemma digit_value_range (c : ascii) :
  is_digit c = true -> 0 <= digit_value c <= 9.
Proof.
  unfold is_digit, digit_value. intros H.
  apply andb_true_iff in H. destruct H as [H1 H2].
  apply Nat.leb_le in H1. apply Nat.leb_le in H2. lia.
Qed.

Lemma decimal_snoc (ds : str) (c : ascii) :
  decimal (ds ++ [c]) = 10 * decimal ds + digit_value c.
Proof. unfold decimal. rewrite fold_left_app. reflexivity. Qed.

Lemma decimal_nonneg (ds : str) :
  forallb is_digit ds = true -> 0 <= decimal ds.
Proof.
  induction ds as [|c ds IH] using rev_ind; intros H.
  - unfold decimal. simpl. lia.
  - rewrite forallb_app in H. apply andb_true_iff in H. destruct H as [H1 H2].
    simpl in H2. rewrite andb_true_r in H2.
    rewrite decimal_snoc. specialize (IH H1).
    pose proof (digit_value_range c H2). lia.
Qed.

Lemma digits_spec (s d r : str) :
  digits s = (d, r) -> s = d ++ r /\ forallb is_digit d = true.
Proof.
  revert d r. induction s as [|c t IH]; intros d r H; simpl in H.
  - inversion H. split; reflexivity.
  - destruct (is_digit c) eqn:Hc.
    + destruct (digits t) as [d' r'] eqn:Ht. inversion H; subst.
      destruct (IH d' r eq_refl) as [-> Hd]. split; [reflexivity|].
      simpl. rewrite Hc. exact Hd.
    + inversion H. split; reflexivity.
Qed.

Lemma digits_run (r : str) (c : ascii) (t : str) :
  forallb is_digit r = true -> is_digit c = false ->
  digits (r ++ c :: t) = (r, c :: t).
Proof.
  intros Hr Hc. induction r as [|d r IH]; simpl.
  - rewrite Hc. reflexivity.
  - simpl in Hr. apply andb_true_iff in Hr. destruct Hr as [Hd Hr].
    rewrite Hd, (IH Hr). reflexivity.
Qed.

(** ** What a match looks like *)

Lemma match_here_token_at (s : str) (i : Z) (mt : Match) :
  match_here s i = Some mt ->
  match_start mt = i /\
  match_end mt = i + 3 + len (group1 mt) + len (group2 mt) /\
  group1 mt <> [] /\ group2 mt <> [] /\
  forallb is_digit (group1 mt) = true /\
  forallb is_digit (group2 mt) = true /\
  exists rest,
    s = "("%char :: group1 mt ++ "x"%char :: group2 mt ++ ")"%char :: rest.
Proof.
  unfold match_here. destruct s as [|c0 s1]; [discriminate|].
  destruct (c0 =? "(")%char eqn:E0; [|discriminate].
  destruct (digits s1) as [g1 r1] eqn:H1.
  destruct g1 as [|d1 g1]; [discriminate|].
  destruct r1 as [|c1 s2]; [discriminate|].
  destruct (c1 =? "x")%char eqn:E1; [|discriminate].
  destruct (digits s2) as [g2 r2] eqn:H2.
  destruct g2 as [|d2 g2]; [discriminate|].
  destruct r2 as [|c2 s3]; [discriminate|].
  destruct (c2 =? ")")%char eqn:E2; [|discriminate].
  intros H. inversion H; subst; clear H. cbn [match_start match_end group1 group2].
  apply Ascii.eqb_eq in E0, E1, E2. subst c0 c1 c2.
  apply digits_spec in H1. destruct H1 as [-> Hg1].
  apply digits_spec in H2. destruct H2 as [-> Hg2].
  repeat split; try assumption; try discriminate.
  exists s3. reflexivity.
Qed.

Lemma match_here_spec (s : str) (i : Z) (mt : Match) :
  match_here s i = Some mt ->
  match_start mt = i /\ i + 5 <= match_end mt /\ match_end mt <= i + len s /\
  forallb is_digit (group1 mt) = true /\ forallb is_digit (group2 mt) = true.
Proof.
  intros H.
  destruct (match_here_token_at s i mt H)
    as (Hs & He & N1 & N2 & D1 & D2 & rest & ->).
  assert (1 <= len (group1 mt) /\ 1 <= len (group2 mt)) as [L1 L2].
  { destruct (group1 mt) as [|a1 t1]; [congruence|].
    destruct (group2 mt) as [|a2 t2]; [congruence|].
    rewrite !len_cons.
    pose proof (len_nonneg t1). pose proof (len_nonneg t2). lia. }
  repeat split; try assumption; [lia|].
  rewrite len_cons, len_app, len_cons, len_app, len_cons.
  pose proof (len_nonneg rest). lia.
Qed.

Lemma match_here_token (g1 g2 rest : str) (i : Z) :
  g1 <> [] -> g2 <> [] ->
  forallb is_digit g1 = true -> forallb is_digit g2 = true ->
  match_here ("("%char :: g1 ++ "x"%char :: g2 ++ ")"%char :: rest) i =
  Some (mkMatch i (i + 3 + len g1 + len g2) g1 g2).
Proof.
  intros N1 N2 D1 D2. unfold match_here.
  replace ("(" =? "(")%char with true by reflexivity.
  rewrite (digits_run g1 "x"%char) by (assumption || reflexivity).
  destruct g1 as [|d1 g1]; [congruence|].
  replace ("x" =? "x")%char with true by reflexivity.
  rewrite (digits_run g2 ")"%char) by (assumption || reflexivity).
  destruct g2 as [|d2 g2]; [congruence|].
  reflexivity.
Qed.

(** The pattern matches at the head of a text exactly when the text opens with
    a marker token. *)
Lemma match_here_iff (t : str) (i : Z) :
  token_here t <-> exists mt, match_here t i = Some mt.
Proof.
  split.
  - intros (g1 & g2 & rest & N1 & N2 & D1 & D2 & ->).
    eexists. apply match_here_token; assumption.
  - intros (mt & H).
    destruct (match_here_token_at t i mt H)
      as (_ & _ & N1 & N2 & D1 & D2 & rest & Ht).
    exists (group1 mt), (group2 mt), rest. auto.
Qed.

Lemma match_here_None (t : str) (i : Z) :
  match_here t i = None -> ~ token_here t.
Proof.
  intros H Ht. apply (match_here_iff t i) in Ht. destruct Ht as (mt & Ht).
  congruence.
Qed.

Lemma search_from_spec (s : str) (i : Z) (mt : Match) :
  search_from s i = Some mt ->
  i <= match_start mt /\ match_start mt + 5 <= match_end mt /\
  match_end mt <= i + len s /\
  forallb is_digit (group1 mt) = true /\ forallb is_digit (group2 mt) = true.
Proof.
  revert i. induction s as [|c t IH]; intros i; cbn [search_from].
  - cbn. discriminate.
  - destruct (match_here (c :: t) i) eqn:Hm.
    + intros H; inversion H; subst. apply match_here_spec in Hm.
      destruct Hm as (-> & ? & ? & ? & ?). repeat split; try assumption; lia.
    + intros H. apply IH in H. rewrite len_cons.
      destruct H as (? & ? & ? & ? & ?). repeat split; try assumption; lia.
Qed.

Lemma search_from_here (s : str) (i : Z) (mt : Match) :
  match_here s i = Some mt -> search_from s i = Some mt.
Proof. intros H. destruct s; cbn [search_from]; rewrite H; reflexivity. Qed.

Lemma search_from_token (t : str) :
  forall (i : Z) (mt : Match),
    search_from t i = Some mt ->
    exists k : nat,
      match_start mt = i + Z.of_nat k /\
      match_here (skipn k t) (match_start mt) = Some mt.
Proof.
  induction t as [|c t IH]; intros i mt; cbn [search_from].
  - cbn. discriminate.
  - destruct (match_here (c :: t) i) as [mt'|] eqn:Hm.
    + intros H; inversion H; subst mt'. exists O.
      destruct (match_here_token_at _ _ _ Hm) as (Hs & _).
      cbn [skipn]. rewrite Hs. split; [lia | exact Hm].
    + intros H. destruct (IH _ _ H) as (k & Hk & Hh).
      exists (S k). cbn [skipn]. split; [lia | exact Hh].
Qed.

(** No token opens before the match that [search_from] returns. *)
Lemma search_from_leftmost (t : str) :
  forall (i : Z) (mt : Match),
    search_from t i = Some mt ->
    forall k : nat, i + Z.of_nat k < match_start mt -> ~ token_here (skipn k t).
Proof.
  induction t as [|c t IH]; intros i mt; cbn [search_from].
  - cbn. discriminate.
  - destruct (match_here (c :: t) i) as [mt'|] eqn:Hm.
    + intros H; inversion H; subst mt'.
      destruct (match_here_token_at _ _ _ Hm) as (Hs & _). intros k Hk. lia.
    + intros H [|k] Hk; cbn [skipn].
      * exact (match_here_None _ _ Hm).
      * apply (IH _ _ H). lia.
Qed.

(** When [search_from] returns nothing, no token opens anywhere. *)
Lemma search_from_None (t : str) :
  forall i : Z, search_from t i = None ->
    forall k : nat, ~ token_here (skipn k t).
Proof.
  induction t as [|c t IH]; intros i; cbn [search_from].
  - intros _ k (g1 & g2 & rest & _ & _ & _ & _ & H).
    rewrite skipn_nil in H. discriminate.
  - destruct (match_here (c :: t) i) as [mt'|] eqn:Hm; [discriminate|].
    intros H [|k]; cbn [skipn].
    + exact (match_here_None _ _ Hm).
    + exact (IH _ H k).
Qed.

Lemma maxsize_value : Platform.maxsize = 9223372036854775807.
Proof. reflexivity. Qed.

Lemma search_0 (s : str) : search s 0 = Ok (search_from s 0).
Proof.
  unfold search. pose proof (len_nonneg s).
  replace ((Platform.maxsize <? 0) || (0 <? - Platform.maxsize - 1))
    with false by reflexivity.
  rewrite Z.min_l, Z.max_l by lia. reflexivity.
Qed.

Lemma search_0_Ok (s : str) : exists mt, search s 0 = Ok mt.
Proof. rewrite search_0. eexists. reflexivity. Qed.

Lemma search_spec (s : str) (pos : Z) (mt : Match) :
  0 <= pos -> search s pos = Ok (Some mt) -> match_ok s pos mt.
Proof.
  intros Hpos. unfold search.
  destruct (_ || _); [discriminate|].
  intros H. inversion H as [H']; clear H. apply search_from_spec in H'.
  rewrite len_skipn in H'. pose proof (len_nonneg s). unfold len in *.
  unfold match_ok. destruct H' as (? & ? & ? & ? & ?).
  repeat split; try assumption; unfold len; lia.
Qed.

Lemma search_token_at (s : str) (pos : Z) (mt : Match) :
  search s pos = Ok (Some mt) -> token_at s mt.
Proof.
  unfold search. destruct (_ || _); [discriminate|].
  intros H. inversion H as [H']; clear H.
  destruct (search_from_token _ _ _ H') as (k & Hk & Hh).
  rewrite skipn_skipn in Hh.
  replace (k + Z.to_nat (Z.max 0 (Z.min pos (len s))))%nat
    with (Z.to_nat (match_start mt)) in Hh by lia.
  destruct (match_here_token_at _ _ _ Hh) as (_ & He & N1 & N2 & D1 & D2 & Hr).
  unfold token_at. repeat split; try assumption. lia.
Qed.

Lemma search_past_end (s : str) (pos : Z) :
  len s <= pos -> pos <= Platform.maxsize -> search s pos = Ok None.
Proof.
  intros H1 H2. unfold search.
  pose proof (len_nonneg s).
  destruct (Z.ltb_spec Platform.maxsize pos); [lia|].
  destruct (Z.ltb_spec pos (- Platform.maxsize - 1)).
  { unfold Platform.maxsize in *. lia. }
  cbn [orb]. rewrite (Z.min_r pos) by lia. rewrite Z.max_r by lia.
  unfold len. rewrite Nat2Z.id, skipn_all. reflexivity.
Qed.

Lemma search_Raise (s : str) (pos : Z) (e : exn) :
  0 <= pos -> search s pos = Raise e ->
  e = OverflowError /\ Platform.maxsize < pos.
Proof.
  intros Hpos. unfold search.
  destruct (Z.ltb_spec Platform.maxsize pos) as [Hlt|Hle]; cbn [orb].
  - intros H; inversion H. auto.
  - destruct (Z.ltb_spec pos (- Platform.maxsize - 1)) as [Hlt|_];
      [|discriminate].
    rewrite maxsize_value in Hlt. lia.
Qed.

Lemma search_not_out_of_fuel (s : str) (pos : Z) : search s pos <> OutOfFuel.
Proof. unfold search. destruct (_ || _); discriminate. Qed.

(** [search] returns the leftmost token at or after [pos]. *)
Lemma search_leftmost (s : str) (pos : Z) (mt : Match) :
  0 <= pos -> search s pos = Ok (Some mt) ->
  forall j, pos <= j < match_start mt ->
    ~ token_here (skipn (Z.to_nat j) s).
Proof.
  intros Hpos Hs j Hj.
  destruct (search_spec s pos mt Hpos Hs) as (_ & H5 & Hend & _).
  revert Hs. unfold search. destruct (_ || _); [discriminate|].
  intros H. inversion H as [H']; clear H.
  rewrite Z.min_l, Z.max_r in H' by lia.
  pose proof (search_from_leftmost _ _ _ H' (Z.to_nat (j - pos))) as Hl.
  rewrite skipn_skipn in Hl.
  replace (Z.to_nat (j - pos) + Z.to_nat pos)%nat with (Z.to_nat j) in Hl by lia.
  apply Hl. lia.
Qed.

(** [search] returns [None] only when no token opens at or after [pos]. *)
Lemma search_None (s : str) (pos : Z) :
  0 <= pos -> search s pos = Ok None ->
  forall j, pos <= j -> ~ token_here (skipn (Z.to_nat j) s).
Proof.
  intros Hpos. unfold search. destruct (_ || _); [discriminate|].
  intros H j Hj. inversion H as [H']; clear H.
  pose proof (len_nonneg s) as Hlen.
  destruct (Z.le_gt_cases pos (len s)) as [Hle|Hgt].
  - rewrite Z.min_l, Z.max_r in H' by lia.
    pose proof (search_from_None _ _ H' (Z.to_nat (j - pos))) as Hn.
    rewrite skipn_skipn in Hn.
    replace (Z.to_nat (j - pos) + Z.to_nat pos)%nat with (Z.to_nat j) in Hn
      by lia.
    exact Hn.
  - intros (g1 & g2 & rest & _ & _ & _ & _ & Ht).
    rewrite skipn_all2 in Ht by (unfold len in *; lia). discriminate.
Qed.

(** ** Markers built from matches *)

Lemma int_cases (ds : str) :
  int ds = Ok (decimal ds) \/ int ds = Raise ValueError.
Proof. unfold int. destruct (_ <? _)%nat; auto. Qed.

Lemma Marker_of_match_Ok (mt : Match) (m : Marker) :
  Marker_of_match mt = Ok m ->
  m = mkMarker (match_start mt) (match_end mt)
               (decimal (group1 mt)) (decimal (group2 mt)).
Proof.
  unfold Marker_of_match.
  destruct (int_cases (group1 mt)) as [-> | ->]; [|discriminate].
  destruct (int_cases (group2 mt)) as [-> | ->]; [|discriminate].
  cbn. intros H; inversion H; reflexivity.
Qed.

Lemma Marker_of_match_Raise (mt : Match) (e : exn) :
  Marker_of_match mt = Raise e ->
  e = ValueError /\ (too_long (group1 mt) \/ too_long (group2 mt)).
Proof.
  unfold Marker_of_match, int, too_long.
  destruct (Nat.ltb_spec Platform.int_max_str_digits (length (group1 mt)))
    as [L1|L1]; cbn [bind].
  - intros H; inversion H. auto.
  - destruct (Nat.ltb_spec Platform.int_max_str_digits (length (group2 mt)))
      as [L2|L2]; cbn [bind]; [|discriminate].
    intros H; inversion H. auto.
Qed.

Lemma Marker_of_match_not_out_of_fuel (mt : Match) :
  Marker_of_match mt <> OutOfFuel.
Proof.
  unfold Marker_of_match.
  destruct (int_cases (group1 mt)) as [-> | ->]; [|discriminate].
  destruct (int_cases (group2 mt)) as [-> | ->]; discriminate.
Qed.

Lemma Marker_of_match_ok (s : str) (p : Z) (mt : Match) (m : Marker) :
  match_ok s p mt -> Marker_of_match mt = Ok m -> marker_ok s p m.
Proof.
  intros (H1 & H2 & H3 & H4 & H5) Hm. apply Marker_of_match_Ok in Hm. subst m.
  unfold marker_ok. cbn [start end_ n_chars n_reps].
  repeat split; try assumption; apply decimal_nonneg; assumption.
Qed.

Lemma found_marker_ok (s : str) (p : Z) (mt : Match) (m : Marker) :
  0 <= p -> search s p = Ok (Some mt) -> Marker_of_match mt = Ok m ->
  marker_ok s p m.
Proof.
  intros Hp Hs Hm.
  exact (Marker_of_match_ok s p mt m (search_spec s p mt Hp Hs) Hm).
Qed.

(** ** The scanning loop *)

Lemma get_markers_loop_None (fuel : nat) (s : str) (acc : list Marker) :
  get_markers_loop fuel s None acc = Ok acc.
Proof. destruct fuel; reflexivity. Qed.

Lemma get_markers_loop_acc (s : str) (fuel : nat) :
  forall (mt : option Match) (acc : list Marker),
    get_markers_loop fuel s mt acc =
    (ms <- get_markers_loop fuel s mt [] ;; Ok (acc ++ ms)).
Proof.
  induction fuel as [|fuel IH]; intros [mt|] acc; cbn [get_markers_loop bind];
    try (rewrite app_nil_r; reflexivity); try reflexivity.
  destruct (Marker_of_match mt) as [m| |]; cbn [bind]; try reflexivity.
  destruct (search s (end_ m + n_chars m)) as [mt'| |]; cbn [bind];
    try reflexivity.
  rewrite (IH mt' (acc ++ [m])), (IH mt' ([] ++ [m])).
  destruct (get_markers_loop fuel s mt' []) as [ms| |]; cbn [bind];
    try reflexivity.
  rewrite <- app_assoc. reflexivity.
Qed.

Lemma get_markers_loop_enumerates (s : str) (fuel : nat) :
  forall (p : Z) (mt : option Match) (ms : list Marker),
    search s p = Ok mt ->
    get_markers_loop fuel s mt [] = Ok ms ->
    enumerates s p ms.
Proof.
  induction fuel as [|fuel IH]; intros p [mt|] ms Hs; cbn [get_markers_loop];
    try discriminate;
    try (intros H; inversion H; subst; apply enum_done; assumption).
  destruct (Marker_of_match mt) as [m| |] eqn:Hm; cbn [bind]; try discriminate.
  destruct (search s (end_ m + n_chars m)) as [mt'| |] eqn:Hs'; cbn [bind];
    try discriminate.
  rewrite get_markers_loop_acc.
  destruct (get_markers_loop fuel s mt' []) as [ms'| |] eqn:Hl; cbn [bind];
    try discriminate.
  intros H; inversion H; subst. cbn [app].
  eapply enum_next; eauto.
Qed.

Lemma enumerates_get_markers_loop (s : str) (p : Z) (ms : list Marker) :
  enumerates s p ms -> 0 <= p ->
  forall (fuel : nat) (mt : option Match),
    len s - p <= Z.of_nat fuel -> search s p = Ok mt ->
    get_markers_loop fuel s mt [] = Ok ms.
Proof.
  induction 1 as [p Hs | p mt m ms Hs Hm He IH]; intros Hp fuel mt' Hf Hs';
    rewrite Hs in Hs'; inversion Hs'; subst mt'.
  - destruct fuel; reflexivity.
  - pose proof (found_marker_ok s p mt m Hp Hs Hm)
      as (H1 & H2 & H3 & H4 & H5).
    destruct fuel as [|fuel]; [lia|].
    cbn [get_markers_loop]. rewrite Hm. cbn [bind].
    destruct (search s (end_ m + n_chars m)) as [mt'| |] eqn:Hn;
      try (inversion He; congruence).
    cbn [bind]. rewrite get_markers_loop_acc.
    rewrite (IH ltac:(lia) fuel mt' ltac:(lia) eq_refl). reflexivity.
Qed.

Lemma get_markers_loop_terminates (s : str) (fuel : nat) :
  forall (p : Z) (mt : option Match) (acc : list Marker),
    0 <= p -> search s p = Ok mt -> len s - p <= Z.of_nat fuel ->
    get_markers_loop fuel s mt acc <> OutOfFuel.
Proof.
  induction fuel as [|fuel IH]; intros p [mt|] acc Hp Hs Hf;
    cbn [get_markers_loop]; try discriminate.
  - apply search_spec in Hs; [|assumption]. destruct Hs as (? & ? & ? & _). lia.
  - destruct (Marker_of_match mt) as [m| |] eqn:Hm; cbn [bind];
      [| discriminate | exfalso; exact (Marker_of_match_not_out_of_fuel _ Hm)].
    pose proof (found_marker_ok s p mt m Hp Hs Hm)
      as (H1 & H2 & H3 & H4 & H5).
    destruct (search s (end_ m + n_chars m)) as [mt'| |] eqn:Hn; cbn [bind];
      [| discriminate | exfalso; exact (search_not_out_of_fuel _ _ Hn)].
    apply (IH (end_ m + n_chars m)); [lia | assumption | lia].
Qed.

(** The scanner's loop never runs out of the fuel it starts with. *)
Lemma get_markers_terminates (s : str) : get_markers s <> OutOfFuel.
Proof.
  unfold get_markers. destruct (search_0_Ok s) as [mt Hs]. rewrite Hs. cbn [bind].
  apply (get_markers_loop_terminates s (length s) 0 mt []); [lia | assumption |].
  unfold len. lia.
Qed.

Lemma get_markers_enumerates (s : str) (ms : list Marker) :
  get_markers s = Ok ms <-> enumerates s 0 ms.
Proof.
  unfold get_markers. destruct (search_0_Ok s) as [mt Hs]. rewrite Hs. cbn [bind].
  split.
  - apply get_markers_loop_enumerates. assumption.
  - intros He. apply (enumerates_get_markers_loop s 0 ms He); [lia | | assumption].
    unfold len. lia.
Qed.

(** Fuel beyond what a run needs changes nothing. *)
Lemma get_markers_loop_more_fuel (s : str) (fuel k : nat) :
  forall (mt : option Match) (acc : list Marker),
    get_markers_loop fuel s mt acc <> OutOfFuel ->
    get_markers_loop (fuel + k) s mt acc = get_markers_loop fuel s mt acc.
Proof.
  induction fuel as [|fuel IH]; intros [mt|] acc; cbn [get_markers_loop Nat.add];
    try reflexivity; try congruence.
  - destruct k; reflexivity.
  - destruct (Marker_of_match mt) as [m| |]; cbn [bind]; try reflexivity.
    destruct (search s (end_ m + n_chars m)) as [mt'| |]; cbn [bind];
      try reflexivity.
    apply IH.
Qed.

(** The scan does not depend on the fuel, once there is enough of it. *)
Lemma get_markers_fuel_irrelevant (s : str) (k : nat) :
  (mt <- search s 0 ;; get_markers_loop (length s + k) s mt []) = get_markers s.
Proof.
  unfold get_markers. destruct (search_0_Ok s) as [mt Hs]. rewrite Hs.
  cbn [bind]. apply get_markers_loop_more_fuel.
  apply (get_markers_loop_terminates s (length s) 0 mt []); [lia | exact Hs |].
  unfold len. lia.
Qed.

Lemma get_markers_loop_raise_cause (s : str) (fuel : nat) :
  forall (p : Z) (mt : option Match) (acc : list Marker) (e : exn),
    0 <= p -> search s p = Ok mt ->
    get_markers_loop fuel s mt acc = Raise e ->
    exists mt0, token_at s mt0 /\ raise_cause mt0 e.
Proof.
  induction fuel as [|fuel IH]; intros p [mt|] acc e Hp Hs;
    cbn [get_markers_loop]; try discriminate.
  pose proof (search_token_at s p mt Hs) as Htok.
  destruct (Marker_of_match mt) as [m|e'|] eqn:Hm; cbn [bind];
    [| | discriminate].
  - pose proof (found_marker_ok s p mt m Hp Hs Hm)
      as (H1 & H2 & H3 & H4 & H5).
    pose proof (Marker_of_match_Ok mt m Hm) as Hval.
    destruct (search s (end_ m + n_chars m)) as [mt'|e'|] eqn:Hn; cbn [bind];
      [| | discriminate].
    + apply (IH (end_ m + n_chars m)); [lia | exact Hn].
    + intros H; inversion H; subst e'.
      assert (Hnn : 0 <= end_ m + n_chars m) by lia.
      destruct (search_Raise s _ e Hnn Hn) as [-> Hov].
      exists mt. split; [exact Htok|]. subst m. exact Hov.
  - intros H; inversion H; subst e'.
    destruct (Marker_of_match_Raise mt e Hm) as [-> Hlong].
    exists mt. split; [exact Htok | exact Hlong].
Qed.

Lemma get_markers_raise_cause (s : str) (e : exn) :
  get_markers s = Raise e -> exists mt, token_at s mt /\ raise_cause mt e.
Proof.
  unfold get_markers. rewrite search_0. cbn [bind].
  apply (get_markers_loop_raise_cause s (length s) 0); [lia | apply search_0].
Qed.

(** The scan of a string that opens with a marker token. *)
Lemma get_markers_first_token (g1 g2 rest : str) :
  g1 <> [] -> g2 <> [] ->
  forallb is_digit g1 = true -> forallb is_digit g2 = true ->
  let s := "("%char :: g1 ++ "x"%char :: g2 ++ ")"%char :: rest in
  get_markers s =
  (marker <- Marker_of_match (mkMatch 0 (0 + 3 + len g1 + len g2) g1 g2) ;;
   mt' <- search s (end_ marker + n_chars marker) ;;
   get_markers_loop (length (g1 ++ "x"%char :: g2 ++ ")"%char :: rest))
                    s mt' [marker]).
Proof.
  intros N1 N2 D1 D2 s. unfold get_markers. rewrite search_0.
  unfold s at 1.
  rewrite (search_from_here _ 0 _ (match_here_token g1 g2 rest 0 N1 N2 D1 D2)).
  reflexivity.
Qed.

(** The scan of a string that opens with a marker token whose data reaches
    the end of the string, or whose numbers the interpreter rejects. *)
Lemma get_markers_opening_token (g1 g2 rest : str) :
  g1 <> [] -> g2 <> [] ->
  forallb is_digit g1 = true -> forallb is_digit g2 = true ->
  let s := "("%char :: g1 ++ "x"%char :: g2 ++ ")"%char :: rest in
  let e := 3 + len g1 + len g2 in
  (too_long g1 \/ too_long g2 -> get_markers s = Raise ValueError) /\
  (~ too_long g1 -> ~ too_long g2 -> Platform.maxsize < e + decimal g1 ->
   get_markers s = Raise OverflowError) /\
  (~ too_long g1 -> ~ too_long g2 -> e + decimal g1 <= Platform.maxsize ->
   len s <= e + decimal g1 ->
   get_markers s = Ok [mkMarker 0 e (decimal g1) (decimal g2)]).
Proof.
  intros N1 N2 D1 D2 s e.
  pose proof (get_markers_first_token g1 g2 rest N1 N2 D1 D2) as Hgm.
  cbv zeta in Hgm. fold s in Hgm. rewrite Hgm. clear Hgm.
  unfold Marker_of_match, int, too_long.
  cbn [group1 group2 match_start match_end].
  change (0 + 3 + len g1 + len g2) with e.
  destruct (Nat.ltb_spec Platform.int_max_str_digits (length g1)) as [L1|L1];
    cbn [bind];
    [split; [reflexivity | split; intros; lia]|].
  destruct (Nat.ltb_spec Platform.int_max_str_digits (length g2)) as [L2|L2];
    cbn [bind end_ n_chars];
    [split; [reflexivity | split; intros; lia]|].
  split; [intros [?|?]; lia|]. split.
  - intros _ _ Hov. unfold search. apply Z.ltb_lt in Hov. rewrite Hov.
    reflexivity.
  - intros _ _ Hfit Hend. rewrite (search_past_end s _ Hend Hfit).
    cbn [bind]. rewrite get_markers_loop_None. reflexivity.
Qed.

(** ** Consequences of the enumeration *)

Lemma enumerates_marker_ok (s : str) (p : Z) (ms : list Marker) :
  enumerates s p ms -> 0 <= p -> Forall (marker_ok s p) ms.
Proof.
  induction 1 as [p Hs | p mt m ms Hs Hm He IH]; intros Hp; constructor.
  - exact (found_marker_ok s p mt m Hp Hs Hm).
  - pose proof (found_marker_ok s p mt m Hp Hs Hm)
      as (H1 & H2 & H3 & H4 & H5).
    eapply Forall_impl; [|apply IH; lia].
    intros b (? & ? & ? & ? & ?). unfold marker_ok. repeat split; lia.
Qed.

Lemma get_markers_marker_ok (s : str) (ms : list Marker) (m : Marker) :
  get_markers s = Ok ms -> In m ms -> marker_ok s 0 m.
Proof.
  intros Hg Hin. apply get_markers_enumerates in Hg.
  apply enumerates_marker_ok in Hg; [|lia].
  rewrite Forall_forall in Hg. auto.
Qed.

Lemma enumerates_sorted (s : str) (p : Z) (ms : list Marker) :
  enumerates s p ms -> 0 <= p -> StronglySorted resumes_after ms.
Proof.
  induction 1 as [p Hs | p mt m ms Hs Hm He IH]; intros Hp; constructor.
  - pose proof (found_marker_ok s p mt m Hp Hs Hm)
      as (H1 & H2 & H3 & H4 & H5).
    apply IH. lia.
  - pose proof (found_marker_ok s p mt m Hp Hs Hm)
      as (H1 & H2 & H3 & H4 & H5).
    eapply Forall_impl; [|apply (enumerates_marker_ok _ _ _ He); lia].
    intros b (? & _). exact H.
Qed.

(** Outside the tokens and data regions of the markers found, no token opens
    at or after the point where the enumeration started: the scan misses
    none. *)
Lemma enumerates_leftmost (s : str) (p : Z) (ms : list Marker) :
  enumerates s p ms -> 0 <= p ->
  forall j, p <= j ->
    Forall (fun m => j < start m \/ end_ m + n_chars m <= j) ms ->
    ~ token_here (skipn (Z.to_nat j) s).
Proof.
  induction 1 as [p Hs | p mt m ms Hs Hm He IH]; intros Hp j Hj Hout.
  - exact (search_None s p Hp Hs j Hj).
  - pose proof (found_marker_ok s p mt m Hp Hs Hm) as (H1 & H2 & H3 & H4 & H5).
    pose proof (Marker_of_match_Ok mt m Hm) as Hval.
    assert (Hst : start m = match_start mt) by (subst m; reflexivity).
    inversion Hout as [|? ? [Hbefore|Hafter] Hout1]; subst.
    + apply (search_leftmost s p mt Hp Hs). lia.
    + apply IH; [lia | lia | exact Hout1].
Qed.

Lemma enumerates_decodes (s : str) (p : Z) (ms : list Marker) :
  enumerates s p ms -> Forall (decodes s) ms.
Proof.
  induction 1 as [p Hs | p mt m ms Hs Hm He IH]; constructor; [|exact IH].
  exists mt. split; [exact (search_token_at s p mt Hs)|].
  exact (Marker_of_match_Ok mt m Hm).
Qed.

(** Markers whose data stays within the string take up no more than the
    string from the point the enumeration started. *)
Lemma enumerates_footprint (s : str) (p : Z) (ms : list Marker) :
  enumerates s p ms -> 0 <= p <= len s ->
  Forall (fun m => end_ m + n_chars m <= len s) ms ->
  sum (map footprint ms) <= len s - p.
Proof.
  induction 1 as [p Hs | p mt m ms Hs Hm He IH]; intros Hp Hb.
  - cbn [map]. rewrite sum_nil. lia.
  - pose proof (found_marker_ok s p mt m (proj1 Hp) Hs Hm)
      as (H1 & H2 & H3 & H4 & H5).
    inversion Hb as [|? ? Hm1 Hb1]; subst.
    cbn [map]. rewrite sum_cons. specialize (IH ltac:(lia) Hb1).
    unfold footprint at 1, Marker_length. lia.
Qed.

Lemma get_markers_footprint (s : str) (ms : list Marker) :
  get_markers s = Ok ms -> forallb (in_bounds s) ms = true ->
  sum (map footprint ms) <= len s.
Proof.
  intros Hg Hb. apply get_markers_enumerates in Hg.
  pose proof (enumerates_footprint s 0 ms Hg) as H.
  pose proof (len_nonneg s).
  rewrite Z.sub_0_r in H. apply H; [lia|].
  rewrite forallb_forall in Hb. apply Forall_forall. intros m Hin.
  apply Z.leb_le. exact (Hb m Hin).
Qed.

Lemma forallb_in_bounds (s : str) (g : Marker -> bool) (ms : list Marker) :
  forallb (fun m => in_bounds s m && g m) ms = true ->
  forallb (in_bounds s) ms = true.
Proof.
  rewrite !forallb_forall. intros H m Hin.
  specialize (H m Hin). apply andb_true_iff in H. tauto.
Qed.

(** The flat delta of a marker is the output it produces less its footprint. *)
Lemma delta_footprint (m : Marker) :
  get_length_decompressed_marker m = n_chars m * n_reps m - footprint m.
Proof. unfold get_length_decompressed_marker, footprint. lia. Qed.

Lemma data_shorter (s : str) (p : Z) (m : Marker) :
  0 <= p -> marker_ok s p m -> (length (data s m) < length s)%nat.
Proof.
  intros Hp (H1 & H2 & H3 & H4 & H5).
  assert (H : len (data s m) = Z.min (n_chars m) (len s - end_ m)).
  { unfold data. rewrite slice_length by lia. f_equal. lia. }
  unfold len in *. lia.
Qed.

Lemma get_markers_data_shorter (s : str) (ms : list Marker) (m : Marker) :
  get_markers s = Ok ms -> In m ms -> (length (data s m) < length s)%nat.
Proof.
  intros Hg Hin. apply get_markers_enumerates in Hg.
  apply enumerates_marker_ok in Hg; [|lia].
  rewrite Forall_forall in Hg. apply (data_shorter s 0 m); [lia | auto].
Qed.

Lemma data_in_bounds (s : str) (p : Z) (m : Marker) :
  0 <= p -> marker_ok s p m -> in_bounds s m = true ->
  len (data s m) = n_chars m.
Proof.
  intros Hp (H1 & H2 & H3 & H4 & H5) Hb. apply Z.leb_le in Hb.
  unfold data. rewrite slice_in_bounds; lia.
Qed.

(** ** The [for] loop of part 2 *)

Section ForLoop.

Variable rec : str -> result Z.
Variable s : str.

Lemma fold_part2_step_terminates (ms : list Marker) :
  (forall m, In m ms -> rec (data s m) <> OutOfFuel) ->
  forall acc, acc <> OutOfFuel ->
    fold_left (part2_step rec s) ms acc <> OutOfFuel.
Proof.
  induction ms as [|m ms IH]; intros H acc Hacc; cbn [fold_left];
    [assumption|].
  apply IH; [intros m' Hin; apply H; right; exact Hin|].
  unfold part2_step. destruct acc as [a| |]; cbn [bind];
    [| discriminate | congruence].
  pose proof (H m (or_introl eq_refl)) as Hm.
  destruct (rec (data s m)); cbn [bind]; congruence.
Qed.

(** The [for] loop of part 2 when every recursive call returns. *)
Lemma fold_part2_step_exact (f : Marker -> Z) (ms : list Marker) :
  (forall m, In m ms -> rec (data s m) = Ok (f m)) ->
  forall a,
    fold_left (part2_step rec s) ms (Ok a) =
    Ok (a + sum (map (fun m => n_reps m * f m - footprint m) ms)).
Proof.
  induction ms as [|m ms IH]; intros H a; cbn [fold_left map].
  - rewrite sum_nil. f_equal. lia.
  - unfold part2_step at 2. cbn [bind]. rewrite (H m (or_introl eq_refl)).
    cbn [bind]. rewrite IH by (intros m' Hin; apply H; right; exact Hin).
    rewrite sum_cons. unfold footprint. f_equal. lia.
Qed.

(** The same loop when every recursive call returns at least [lo m]. *)
Lemma fold_part2_step_lower (lo : Marker -> Z) (ms : list Marker) :
  (forall m, In m ms ->
     0 <= n_reps m /\ exists r, rec (data s m) = Ok r /\ lo m <= r) ->
  forall a, exists b,
    fold_left (part2_step rec s) ms (Ok a) = Ok b /\
    a + sum (map (fun m => n_reps m * lo m - footprint m) ms) <= b.
Proof.
  induction ms as [|m ms IH]; intros H a; cbn [fold_left map].
  - exists a. rewrite sum_nil. split; [reflexivity | lia].
  - destruct (H m (or_introl eq_refl)) as (Hr & r & Hrec & Hlo).
    unfold part2_step at 2. cbn [bind]. rewrite Hrec. cbn [bind].
    destruct (IH (fun m' Hin => H m' (or_intror Hin))
                 (a + n_reps m * r - (n_chars m + Marker_length m)))
      as (b & Hb & Hle).
    exists b. split; [exact Hb|].
    rewrite sum_cons. unfold footprint in *.
    assert (n_reps m * lo m <= n_reps m * r)
      by (apply Z.mul_le_mono_nonneg_l; lia).
    lia.
Qed.

End ForLoop.

Lemma fold_part2_step_ext (rec1 rec2 : str -> result Z) (s : str)
    (ms : list Marker) :
  (forall m, In m ms -> rec1 (data s m) = rec2 (data s m)) ->
  forall acc,
    fold_left (part2_step rec1 s) ms acc = fold_left (part2_step rec2 s) ms acc.
Proof.
  induction ms as [|m ms IH]; intros H acc; cbn [fold_left]; [reflexivity|].
  unfold part2_step at 2 4. rewrite (H m (or_introl eq_refl)).
  apply IH. intros m' Hin. apply H. right. exact Hin.
Qed.

(** ** The recursion of part 2 *)

Lemma part2_fuel_enough (n : nat) :
  forall (s : str) (fuel : nat),
    (length s <= n)%nat -> (length s < fuel)%nat ->
    part2_fuel fuel s = get_length_decompressed_sequence_part2 s.
Proof.
  unfold get_length_decompressed_sequence_part2.
  induction n as [|n IH]; intros s fuel Hn Hf;
    (destruct fuel as [|fuel]; [lia|]); cbn [part2_fuel];
    destruct (get_markers s) as [ms| |] eqn:Hg; cbn [bind]; try reflexivity;
    apply fold_part2_step_ext; intros m Hin;
    pose proof (get_markers_data_shorter s ms m Hg Hin) as Hlt.
  - lia.
  - rewrite (IH (data s m) fuel) by lia.
    rewrite (IH (data s m) (length s)) by lia. reflexivity.
Qed.

(** The body of [get_length_decompressed_sequence_part2], with the recursive
    call being the function itself. *)
Lemma part2_unfold (s : str) :
  get_length_decompressed_sequence_part2 s =
  (markers <- get_markers s ;;
   fold_left (part2_step get_length_decompressed_sequence_part2 s) markers
             (Ok (len s))).
Proof.
  unfold get_length_decompressed_sequence_part2 at 1. cbn [part2_fuel].
  destruct (get_markers s) as [ms| |] eqn:Hg; cbn [bind]; try reflexivity.
  apply fold_part2_step_ext. intros m Hin.
  pose proof (get_markers_data_shorter s ms m Hg Hin) as Hlt.
  apply (part2_fuel_enough (length s)); lia.
Qed.

Lemma part2_terminates_upto (n : nat) :
  forall s : str, (length s <= n)%nat ->
    get_length_decompressed_sequence_part2 s <> OutOfFuel.
Proof.
  induction n as [|n IH]; intros s Hn; rewrite part2_unfold;
    destruct (get_markers s) as [ms| |] eqn:Hg; cbn [bind];
    try discriminate; try (exfalso; exact (get_markers_terminates s Hg));
    (apply fold_part2_step_terminates; [|discriminate]); intros m Hin;
    pose proof (get_markers_data_shorter s ms m Hg Hin) as Hlt.
  - lia.
  - apply IH. lia.
Qed.

(** The recursion never runs out of the fuel it starts with. *)
Lemma part2_terminates (s : str) :
  get_length_decompressed_sequence_part2 s <> OutOfFuel.
Proof. apply (part2_terminates_upto (length s)). lia. Qed.

Lemma no_markers_part2 (s : str) :
  no_markers s = true ->
  get_length_decompressed_sequence_part2 s = Ok (len s).
Proof.
  unfold no_markers. intros H. rewrite part2_unfold.
  destruct (get_markers s) as [[|m ms]| |]; try discriminate. reflexivity.
Qed.

Lemma part1_nonneg (s : str) (ms : list Marker) :
  get_markers s = Ok ms -> forallb (in_bounds s) ms = true ->
  exists n, get_length_decompressed_sequence_part1 s = Ok n /\ 0 <= n.
Proof.
  intros Hg Hb. unfold get_length_decompressed_sequence_part1.
  rewrite Hg. cbn [bind]. eexists. split; [reflexivity|].
  pose proof (get_markers_footprint s ms Hg Hb) as Hfp.
  assert (sum (map (fun m => - footprint m) ms)
          <= sum (map get_length_decompressed_marker ms)) as Hle.
  { apply sum_map_le. intros m Hin.
    destruct (get_markers_marker_ok s ms m Hg Hin) as (_ & _ & _ & Hc & Hr).
    rewrite delta_footprint.
    pose proof (Z.mul_nonneg_nonneg _ _ Hc Hr). lia. }
  rewrite sum_map_opp in Hle. lia.
Qed.

Lemma well_formed_fuel_nonneg (fuel : nat) :
  forall s : str, well_formed_fuel fuel s = true ->
    exists n, get_length_decompressed_sequence_part2 s = Ok n /\ 0 <= n.
Proof.
  induction fuel as [|fuel IH]; intros s Hwf; cbn [well_formed_fuel] in Hwf;
    [discriminate|].
  destruct (get_markers s) as [ms| |] eqn:Hg; try discriminate.
  pose proof (get_markers_footprint s ms Hg (forallb_in_bounds _ _ _ Hwf)) as Hfp.
  rewrite forallb_forall in Hwf.
  rewrite part2_unfold, Hg. cbn [bind].
  destruct (fold_part2_step_lower get_length_decompressed_sequence_part2 s
              (fun _ => 0) ms) with (a := len s) as (b & Hb & Hle).
  { intros m Hin. specialize (Hwf m Hin). apply andb_true_iff in Hwf.
    destruct Hwf as [_ Hd].
    destruct (get_markers_marker_ok s ms m Hg Hin) as (_ & _ & _ & _ & Hr).
    split; [exact Hr|]. apply IH. exact Hd. }
  exists b. split; [exact Hb|].
  rewrite (sum_map_ext _ (fun m => - footprint m)) in Hle
    by (intros; lia).
  rewrite sum_map_opp in Hle. lia.
Qed.

(** ** The examples of the puzzle text *)

(** C1 (as the code has it): the recursive length calculator applied to
    ["X(8x2)(3x3)ABCY"] returns 20, the length of [XABCABCABCABCABCABCY]. *)
Theorem part2_nested_example :
  get_length_decompressed_sequence_part2 (py "X(8x2)(3x3)ABCY") = Ok 20.
Proof. vm_compute. reflexivity. Qed.

(** C1 (counterexample): on ["X(8x2)(3x3)ABCY"] the recursive length
    calculator does not return 21. *)
Lemma nested_example_is_not_21 :
  get_length_decompressed_sequence_part2 (py "X(8x2)(3x3)ABCY") <> Ok 21.
Proof. vm_compute. discriminate. Qed.

(** C3: the flat length calculator returns 11 on ["A(2x2)BCD(2x2)EFG"], 6 on
    ["(6x1)(1x3)A"], where the marker-like text inside the data region of the
    first marker is not a marker, and 18 on ["X(8x2)(3x3)ABCY"]. *)
Theorem part1_examples :
  get_length_decompressed_sequence_part1 (py "A(2x2)BCD(2x2)EFG") = Ok 11 /\
  get_length_decompressed_sequence_part1 (py "(6x1)(1x3)A") = Ok 6 /\
  get_markers (py "(6x1)(1x3)A") = Ok [mkMarker 0 5 6 1] /\
  get_length_decompressed_sequence_part1 (py "X(8x2)(3x3)ABCY") = Ok 18.
Proof. repeat split; vm_compute; reflexivity. Qed.

(** C4: the recursive length calculator returns 9 on ["(3x3)XYZ"], 241920 on
    ["(27x12)(20x12)(13x14)(7x10)(1x12)A"] and 445 on
    ["(25x3)(3x3)ABC(2x3)XY(5x2)PQRSTX(18x9)(3x2)TWO(5x7)SEVEN"]. *)
Theorem part2_examples :
  get_length_decompressed_sequence_part2 (py "(3x3)XYZ") = Ok 9 /\
  get_length_decompressed_sequence_part2
    (py "(27x12)(20x12)(13x14)(7x10)(1x12)A") = Ok 241920 /\
  get_length_decompressed_sequence_part2
    (py "(25x3)(3x3)ABC(2x3)XY(5x2)PQRSTX(18x9)(3x2)TWO(5x7)SEVEN") = Ok 445.
Proof. repeat split; vm_compute; reflexivity. Qed.

(** ** The enumeration of markers *)

(** C5: for every input string the enumeration ends, and the markers it
    returns are found left to right without overlap: each search after a
    found marker resumes at that marker's [end + n_chars], every later
    marker starts at or after the [end + n_chars] of every earlier one, and
    every marker has [start < end]. *)
Theorem get_markers_left_to_right (s : str) :
  get_markers s <> OutOfFuel /\
  forall ms, get_markers s = Ok ms ->
    enumerates s 0 ms /\
    StronglySorted resumes_after ms /\
    Forall (fun m => start m < end_ m) ms.
Proof.
  split; [apply get_markers_terminates|].
  intros ms Hg. apply get_markers_enumerates in Hg.
  split; [exact Hg|]. split.
  - apply (enumerates_sorted s 0 ms Hg). lia.
  - eapply Forall_impl; [|apply (enumerates_marker_ok s 0 ms Hg); lia].
    intros m (_ & H & _). lia.
Qed.

Lemma get_markers_left_to_right_witness :
  let ms := [mkMarker 1 6 2 2; mkMarker 9 14 2 2] in
  enumerates (py "A(2x2)BCD(2x2)EFG") 0 ms /\
  StronglySorted resumes_after ms /\
  Forall (fun m => start m < end_ m) ms.
Proof.
  apply (proj2 (get_markers_left_to_right (py "A(2x2)BCD(2x2)EFG"))).
  vm_compute. reflexivity.
Defined.

(** ** Long digit runs *)

Lemma reaches_search (s : str) (p : Z) (mt : Match) :
  reaches s p mt -> exists mt0, search s p = Ok (Some mt0).
Proof. intros [? ? H | ? ? ? ? H _ _]; eauto. Qed.

Lemma Marker_of_match_too_long (mt : Match) :
  too_long (group1 mt) \/ too_long (group2 mt) ->
  Marker_of_match mt = Raise ValueError.
Proof.
  unfold Marker_of_match, int, too_long. intros H.
  destruct (Nat.ltb_spec Platform.int_max_str_digits (length (group1 mt)))
    as [L1|L1]; cbn [bind]; [reflexivity|].
  destruct (Nat.ltb_spec Platform.int_max_str_digits (length (group2 mt)))
    as [L2|L2]; cbn [bind]; [reflexivity|].
  lia.
Qed.

Lemma Marker_of_match_fits (mt : Match) :
  ~ too_long (group1 mt) -> ~ too_long (group2 mt) ->
  Marker_of_match mt =
  Ok (mkMarker (match_start mt) (match_end mt)
               (decimal (group1 mt)) (decimal (group2 mt))).
Proof.
  unfold Marker_of_match, int, too_long. intros H1 H2.
  destruct (Nat.ltb_spec Platform.int_max_str_digits (length (group1 mt)))
    as [L1|L1]; [lia|].
  destruct (Nat.ltb_spec Platform.int_max_str_digits (length (group2 mt)))
    as [L2|L2]; [lia|].
  reflexivity.
Qed.

(** The loop raises when it comes to a token that the interpreter cannot
    turn into a marker, or whose data it cannot skip. *)
Lemma get_markers_loop_reaches (s : str) (p : Z) (mt : Match) :
  reaches s p mt -> 0 <= p ->
  forall (fuel : nat) (mt0 : option Match) (acc : list Marker),
    search s p = Ok mt0 -> len s - p <= Z.of_nat fuel ->
    (too_long (group1 mt) \/ too_long (group2 mt) ->
     get_markers_loop fuel s mt0 acc = Raise ValueError) /\
    (~ too_long (group1 mt) -> ~ too_long (group2 mt) ->
     Platform.maxsize < match_end mt + decimal (group1 mt) ->
     get_markers_loop fuel s mt0 acc = Raise OverflowError).
Proof.
  induction 1 as [p mt Hs | p mt1 m mt Hs Hm Hr IH]; intros Hp fuel mt0 acc Hs0 Hf;
    rewrite Hs in Hs0; inversion Hs0; subst mt0; clear Hs0;
    pose proof (search_spec s p _ Hp Hs) as (M1 & M2 & M3 & _);
    (destruct fuel as [|fuel]; [lia|]); cbn [get_markers_loop].
  - split.
    + intros Hl. rewrite (Marker_of_match_too_long mt Hl). reflexivity.
    + intros L1 L2 Hov. rewrite (Marker_of_match_fits mt L1 L2).
      cbn [bind end_ n_chars]. unfold search.
      apply Z.ltb_lt in Hov. rewrite Hov. reflexivity.
  - pose proof (found_marker_ok s p mt1 m Hp Hs Hm) as (H1 & H2 & H3 & H4 & H5).
    rewrite Hm. cbn [bind].
    destruct (reaches_search _ _ _ Hr) as (mt' & Hs').
    rewrite Hs'. cbn [bind].
    apply IH; [lia | exact Hs' | lia].
Qed.

(** C7: for every input string in which the scan comes to a marker whose
    count or repeat digit run is beyond what the interpreter converts to an
    integer, the scanner raises: [get_markers] fails with the [ValueError]
    of [int], the only numeric format error this source can surface (it
    declares no exception of its own).  It fails with [OverflowError] when
    the count is such that [end + n_chars] is beyond [sys.maxsize].  Nothing
    wraps: every marker of a scan that returns carries the exact decimal
    value of the digit runs of its token. *)
Theorem overflowing_digit_run_raises (s : str) (mt : Match) :
  reaches s 0 mt ->
  (too_long (group1 mt) \/ too_long (group2 mt) ->
   get_markers s = Raise ValueError) /\
  (~ too_long (group1 mt) -> ~ too_long (group2 mt) ->
   Platform.maxsize < match_end mt + decimal (group1 mt) ->
   get_markers s = Raise OverflowError) /\
  (forall ms, get_markers s = Ok ms -> Forall (decodes s) ms).
Proof.
  intros Hr.
  assert (Hloop := get_markers_loop_reaches s 0 mt Hr ltac:(lia) (length s)
                     (search_from s 0) [] (search_0 s)
                     ltac:(unfold len; lia)).
  unfold get_markers. rewrite search_0. cbn [bind].
  destruct Hloop as [Hv Ho]. split; [exact Hv|]. split; [exact Ho|].
  intros ms Hg.
  apply (enumerates_decodes s 0 ms).
  apply get_markers_enumerates. unfold get_markers. rewrite search_0. exact Hg.
Qed.

Lemma overflowing_digit_run_raises_witness :
  get_markers (py "(1x" ++ repeat "1"%char 4301 ++ py ")A") = Raise ValueError /\
  get_markers (py "(18446744073709551616x1)") = Raise OverflowError /\
  Forall (decodes (py "(1x18446744073709551616)A"))
         [mkMarker 0 24 1 18446744073709551616].
Proof.
  split; [|split].
  - apply (proj1 (overflowing_digit_run_raises
                    (py "(1x" ++ repeat "1"%char 4301 ++ py ")A")
                    (mkMatch 0 4305 (py "1") (repeat "1"%char 4301))
                    ltac:(apply reaches_here; vm_compute; reflexivity))).
    right. unfold too_long. cbn [group2]. rewrite repeat_length.
    unfold Platform.int_max_str_digits. lia.
  - apply (proj1 (proj2 (overflowing_digit_run_raises
                           (py "(18446744073709551616x1)")
                           (mkMatch 0 24 (py "18446744073709551616") (py "1"))
                           ltac:(apply reaches_here; vm_compute; reflexivity)))).
    + unfold too_long. cbn [group1]. change (length _) with 20%nat.
      unfold Platform.int_max_str_digits. lia.
    + unfold too_long. cbn [group2]. change (length _) with 1%nat.
      unfold Platform.int_max_str_digits. lia.
    + vm_compute. reflexivity.
  - apply (proj2 (proj2 (overflowing_digit_run_raises
                           (py "(1x18446744073709551616)A")
                           (mkMatch 0 24 (py "1") (py "18446744073709551616"))
                           ltac:(apply reaches_here; vm_compute; reflexivity)))).
    vm_compute. reflexivity.
Defined.

(** ** Strings without markers *)

(** C8: for every input string in which the scanner finds no marker, the
    flat and the recursive length calculator both return the length of the
    input string. *)
Theorem no_markers_length (s : str) :
  get_markers s = Ok [] ->
  get_length_decompressed_sequence_part1 s = Ok (len s) /\
  get_length_decompressed_sequence_part2 s = Ok (len s).
Proof.
  intros Hg. split.
  - unfold get_length_decompressed_sequence_part1. rewrite Hg. reflexivity.
  - rewrite part2_unfold, Hg. reflexivity.
Qed.

Lemma no_markers_length_witness :
  get_length_decompressed_sequence_part1 (py "ADVENT") = Ok 6 /\
  get_length_decompressed_sequence_part2 (py "ADVENT") = Ok 6.
Proof.
  apply (no_markers_length (py "ADVENT")). vm_compute. reflexivity.
Defined.

(** ** Markers that reach past the end of the string *)

(** C6 (as the code has it): for every input string on which the scan
    succeeds and which contains a marker whose declared data length extends
    past the end of the sequence, no calculator fails on that account.  The
    flat calculator returns the length plus the sum of the markers' deltas,
    computed from the declared [n_chars]; the recursive calculator takes as
    the data of such a marker the characters that are there, [s[end:]], and
    returns an integer whenever its recursive calls do. *)
Theorem truncated_marker_result (s : str) (ms : list Marker) :
  get_markers s = Ok ms ->
  Exists (fun m => in_bounds s m = false) ms ->
  get_length_decompressed_sequence_part1 s =
    Ok (sum (map get_length_decompressed_marker ms) + len s) /\
  (forall m, In m ms -> in_bounds s m = false ->
     data s m = skipn (Z.to_nat (end_ m)) s) /\
  ((forall m, In m ms ->
      exists r, get_length_decompressed_sequence_part2 (data s m) = Ok r) ->
   exists n, get_length_decompressed_sequence_part2 s = Ok n).
Proof.
  intros Hg _. split; [|split].
  - unfold get_length_decompressed_sequence_part1. rewrite Hg. reflexivity.
  - intros m Hin Hb.
    destruct (get_markers_marker_ok s ms m Hg Hin) as (H1 & H2 & H3 & H4 & H5).
    apply Z.leb_gt in Hb. unfold data. apply slice_truncated; lia.
  - intros Hrec. rewrite part2_unfold, Hg. cbn [bind].
    assert (Hfold : forall l a,
               (forall m, In m l -> exists r,
                    get_length_decompressed_sequence_part2 (data s m) = Ok r) ->
               exists n,
                 fold_left (part2_step get_length_decompressed_sequence_part2 s)
                           l (Ok a) = Ok n).
    { induction l as [|m l IH]; intros a H; cbn [fold_left].
      - exists a. reflexivity.
      - destruct (H m (or_introl eq_refl)) as [r Hr].
        unfold part2_step at 2. cbn [bind]. rewrite Hr. cbn [bind].
        apply IH. intros m' Hin. apply H. right. exact Hin. }
    apply Hfold. exact Hrec.
Qed.

Lemma truncated_marker_result_witness :
  let s := py "(9x1)A" in
  get_length_decompressed_sequence_part1 s =
    Ok (sum (map get_length_decompressed_marker [mkMarker 0 5 9 1]) + len s) /\
  data s (mkMarker 0 5 9 1) = py "A" /\
  exists n, get_length_decompressed_sequence_part2 s = Ok n.
Proof.
  destruct (truncated_marker_result (py "(9x1)A") [mkMarker 0 5 9 1])
    as (H1 & H2 & H3).
  - vm_compute. reflexivity.
  - apply Exists_cons_hd. vm_compute. reflexivity.
  - split; [exact H1|]. split.
    + apply (H2 (mkMarker 0 5 9 1)).
      * left. reflexivity.
      * vm_compute. reflexivity.
    + apply H3. intros m [<-|[]]. exists 1. vm_compute. reflexivity.
Defined.

(** C6 (counterexample): ["(9x1)A"] has a marker that declares nine
    characters of data where one is left, and both calculators return an
    integer. *)
Lemma truncated_marker_no_error :
  let s := py "(9x1)A" in
  get_markers s = Ok [mkMarker 0 5 9 1] /\
  len s < end_ (mkMarker 0 5 9 1) + n_chars (mkMarker 0 5 9 1) /\
  get_length_decompressed_sequence_part1 s = Ok 1 /\
  get_length_decompressed_sequence_part2 s = Ok (-7).
Proof. repeat split; vm_compute; reflexivity. Qed.

(** ** The sign of the result *)

(** C9 (as the code has it): whenever the data region of every marker lies
    within the sequence the marker was found in (for the recursive
    calculator: at every level of nesting), a calculator invocation returns
    a non-negative integer. *)
Theorem lengths_nonnegative (s : str) :
  (forall ms, get_markers s = Ok ms -> forallb (in_bounds s) ms = true ->
     exists n, get_length_decompressed_sequence_part1 s = Ok n /\ 0 <= n) /\
  (well_formed s = true ->
     exists n, get_length_decompressed_sequence_part2 s = Ok n /\ 0 <= n).
Proof.
  split.
  - apply part1_nonneg.
  - apply well_formed_fuel_nonneg.
Qed.

Lemma lengths_nonnegative_witness :
  let s := py "X(8x2)(3x3)ABCY" in
  (exists n, get_length_decompressed_sequence_part1 s = Ok n /\ 0 <= n) /\
  (exists n, get_length_decompressed_sequence_part2 s = Ok n /\ 0 <= n).
Proof.
  destruct (lengths_nonnegative (py "X(8x2)(3x3)ABCY")) as (H1 & H2).
  split.
  - apply (H1 [mkMarker 1 6 8 2]); vm_compute; reflexivity.
  - apply H2. vm_compute. reflexivity.
Defined.

(** C9 (counterexample): on ["(9x0)A"], whose marker declares nine characters
    of data where one is left, both calculators return -8. *)
Lemma negative_length :
  let s := py "(9x0)A" in
  get_length_decompressed_sequence_part1 s = Ok (-8) /\
  get_length_decompressed_sequence_part2 s = Ok (-8) /\
  ~ 0 <= -8.
Proof. repeat split; try (vm_compute; reflexivity). lia. Qed.

(** ** Recursive against flat *)

(** C2 (as the code has it): the recursive result is at least the flat
    result whenever the recursive length of the data region of every marker
    is at least the [n_chars] that the marker declares; and the two results
    are equal whenever every marker's data region lies within the sequence
    and contains no marker. *)
Theorem part2_against_part1 (s : str) (ms : list Marker) :
  get_markers s = Ok ms ->
  ((forall m, In m ms ->
      exists r,
        get_length_decompressed_sequence_part2 (data s m) = Ok r /\
        n_chars m <= r) ->
   exists f r,
     get_length_decompressed_sequence_part1 s = Ok f /\
     get_length_decompressed_sequence_part2 s = Ok r /\
     f <= r) /\
  (forallb (fun m => in_bounds s m && no_markers (data s m)) ms = true ->
   exists n,
     get_length_decompressed_sequence_part1 s = Ok n /\
     get_length_decompressed_sequence_part2 s = Ok n).
Proof.
  intros Hg. split; intros H;
    unfold get_length_decompressed_sequence_part1;
    rewrite part2_unfold, Hg; cbn [bind].
  - destruct (fold_part2_step_lower get_length_decompressed_sequence_part2 s
                n_chars ms) with (a := len s) as (b & Hb & Hle).
    { intros m Hin. split; [|exact (H m Hin)].
      apply (get_markers_marker_ok s ms m Hg Hin). }
    do 2 eexists. split; [reflexivity|]. split; [exact Hb|].
    rewrite (sum_map_ext get_length_decompressed_marker
               (fun m => n_reps m * n_chars m - footprint m))
      by (intros; rewrite delta_footprint; lia).
    lia.
  - rewrite forallb_forall in H.
    rewrite (fold_part2_step_exact _ s n_chars).
    + eexists. split; [reflexivity|]. f_equal.
      rewrite (sum_map_ext get_length_decompressed_marker
                 (fun m => n_reps m * n_chars m - footprint m))
        by (intros; rewrite delta_footprint; lia).
      lia.
    + intros m Hin. specialize (H m Hin).
      apply andb_true_iff in H. destruct H as [Hin_b Hd].
      rewrite (no_markers_part2 _ Hd). f_equal.
      apply (data_in_bounds s 0 m);
        [lia | exact (get_markers_marker_ok s ms m Hg Hin) | exact Hin_b].
Qed.

Lemma part2_against_part1_witness :
  let s := py "(25x3)(3x3)ABC(2x3)XY(5x2)PQRSTX(18x9)(3x2)TWO(5x7)SEVEN" in
  (exists f r,
     get_length_decompressed_sequence_part1 s = Ok f /\
     get_length_decompressed_sequence_part2 s = Ok r /\
     f <= r) /\
  (exists n,
     get_length_decompressed_sequence_part1 (py "A(2x2)BCD(2x2)EFG") = Ok n /\
     get_length_decompressed_sequence_part2 (py "A(2x2)BCD(2x2)EFG") = Ok n).
Proof.
  split.
  - apply (proj1 (part2_against_part1
                    (py "(25x3)(3x3)ABC(2x3)XY(5x2)PQRSTX(18x9)(3x2)TWO(5x7)SEVEN")
                    [mkMarker 0 6 25 3; mkMarker 32 38 18 9]
                    ltac:(vm_compute; reflexivity))).
    intros m [<-|[<-|[]]].
    + exists 25. split; [vm_compute; reflexivity | cbn; lia].
    + exists 41. split; [vm_compute; reflexivity | cbn; lia].
  - apply (proj2 (part2_against_part1 (py "A(2x2)BCD(2x2)EFG")
                    [mkMarker 1 6 2 2; mkMarker 9 14 2 2]
                    ltac:(vm_compute; reflexivity))).
    vm_compute. reflexivity.
Defined.

(** C2 (counterexample): on ["(6x2)(1x1)A"] the flat result is 12 and the
    recursive result is 2; and on ["(9x1)A"], whose only data region ["A"]
    contains no marker, the two results differ. *)
Lemma part2_below_part1 :
  (get_length_decompressed_sequence_part1 (py "(6x2)(1x1)A") = Ok 12 /\
   get_length_decompressed_sequence_part2 (py "(6x2)(1x1)A") = Ok 2 /\
   ~ 2 >= 12) /\
  (get_markers (py "(9x1)A") = Ok [mkMarker 0 5 9 1] /\
   get_markers (data (py "(9x1)A") (mkMarker 0 5 9 1)) = Ok [] /\
   get_length_decompressed_sequence_part1 (py "(9x1)A") = Ok 1 /\
   get_length_decompressed_sequence_part2 (py "(9x1)A") = Ok (-7)).
Proof. repeat split; try (vm_compute; reflexivity). lia. Qed.

(** ** Termination of the recursion *)

(** C10: the recursive length calculator terminates on every input string:
    started with more fuel than the string has characters it never runs out,
    because every recursive call is made on a data region strictly shorter
    than the caller's input, and a string without markers returns its own
    length without recursing. *)
Theorem part2_recursion_terminates (s : str) :
  (forall fuel, (length s < fuel)%nat ->
     part2_fuel fuel s = get_length_decompressed_sequence_part2 s) /\
  get_length_decompressed_sequence_part2 s <> OutOfFuel /\
  (forall ms m, get_markers s = Ok ms -> In m ms ->
     (length (data s m) < length s)%nat) /\
  (get_markers s = Ok [] ->
     get_length_decompressed_sequence_part2 s = Ok (len s)).
Proof.
  split; [|split; [|split]].
  - intros fuel Hf. apply (part2_fuel_enough (length s)); lia.
  - apply part2_terminates.
  - apply get_markers_data_shorter.
  - intros Hg. rewrite part2_unfold, Hg. reflexivity.
Qed.

Lemma part2_recursion_terminates_witness :
  let s := py "X(8x2)(3x3)ABCY" in
  part2_fuel 40 s = get_length_decompressed_sequence_part2 s /\
  (length (data s (mkMarker 1 6 8 2)) < length s)%nat /\
  get_length_decompressed_sequence_part2 (py "ABC") = Ok 3.
Proof.
  destruct (part2_recursion_terminates (py "X(8x2)(3x3)ABCY"))
    as (H1 & _ & H3 & _).
  destruct (part2_recursion_terminates (py "ABC")) as (_ & _ & _ & H4).
  split; [|split].
  - apply H1. vm_compute. lia.
  - apply (H3 [mkMarker 1 6 8 2]).
    + vm_compute. reflexivity.
    + left. reflexivity.
  - apply H4. vm_compute. reflexivity.
Defined.

(** ** A character after the end *)

Lemma digits_snoc (t : str) (c : ascii) :
  digits (t ++ [c]) =
  match digits t with
  | (d, []) => if is_digit c then (d ++ [c], []) else (d, [c])
  | (d, r) => (d, r ++ [c])
  end.
Proof.
  induction t as [|a t IH]; cbn [app digits].
  - destruct (is_digit c); reflexivity.
  - destruct (is_digit a); [|reflexivity].
    rewrite IH. destruct (digits t) as [d [|b r]]; [|reflexivity].
    destruct (is_digit c); reflexivity.
Qed.

(** A token ends with [")"]: no other character, put after the end of a
    text, completes one. *)
Lemma match_here_snoc (t : str) (c : ascii) (i : Z) :
  (c =? ")")%char = false -> match_here (t ++ [c]) i = match_here t i.
Proof.
  intros Hc. destruct t as [|c0 s1]; cbn [app match_here].
  - destruct (c =? "(")%char; reflexivity.
  - destruct (c0 =? "(")%char; [|reflexivity].
    rewrite digits_snoc. destruct (digits s1) as [g1 [|c1 s2]].
    + destruct (is_digit c); destruct g1 as [|d1 g1]; cbn [app];
        try reflexivity.
      destruct (c =? "x")%char; reflexivity.
    + cbn [app]. destruct g1 as [|d1 g1]; [reflexivity|].
      destruct (c1 =? "x")%char; [|reflexivity].
      rewrite digits_snoc. destruct (digits s2) as [g2 [|c2 s3]];
        [|reflexivity].
      destruct (is_digit c); destruct g2 as [|d2 g2]; cbn [app];
        try reflexivity.
      rewrite Hc. reflexivity.
Qed.

Lemma search_from_snoc (t : str) (c : ascii) :
  (c =? ")")%char = false ->
  forall i, search_from (t ++ [c]) i = search_from t i.
Proof.
  intros Hc. induction t as [|a t IH]; intros i.
  - pose proof (match_here_snoc [] c i Hc) as H0. cbn [app] in H0.
    cbn [app search_from]. rewrite H0. reflexivity.
  - pose proof (match_here_snoc (a :: t) c i Hc) as H0. cbn [app] in H0.
    cbn [app search_from]. rewrite H0, IH. reflexivity.
Qed.

Lemma search_snoc (s : str) (c : ascii) (pos : Z) :
  (c =? ")")%char = false -> search (s ++ [c]) pos = search s pos.
Proof.
  intros Hc. unfold search. destruct (_ || _); [reflexivity|].
  rewrite len_app. change (len [c]) with 1. pose proof (len_nonneg s) as Hl.
  destruct (Z.le_gt_cases pos (len s)) as [Hle|Hgt].
  - rewrite !Z.min_l by lia.
    rewrite skipn_app.
    replace (Z.to_nat (Z.max 0 pos) - length s)%nat with O
      by (unfold len in *; lia).
    cbn [skipn]. rewrite search_from_snoc by assumption. reflexivity.
  - rewrite !Z.min_r by lia. rewrite !Z.max_r by lia.
    rewrite !skipn_all2 by (rewrite ?length_app; cbn [length]; unfold len; lia).
    reflexivity.
Qed.

Lemma get_markers_loop_snoc (s : str) (c : ascii) (fuel : nat) :
  (c =? ")")%char = false ->
  forall mt acc,
    get_markers_loop fuel (s ++ [c]) mt acc = get_markers_loop fuel s mt acc.
Proof.
  intros Hc. induction fuel as [|fuel IH]; intros [mt|] acc;
    cbn [get_markers_loop]; try reflexivity.
  destruct (Marker_of_match mt) as [m| |]; cbn [bind]; try reflexivity.
  rewrite search_snoc by assumption.
  destruct (search s (end_ m + n_chars m)) as [mt'| |]; cbn [bind];
    try reflexivity.
  apply IH.
Qed.

Lemma get_markers_snoc (s : str) (c : ascii) :
  (c =? ")")%char = false -> get_markers (s ++ [c]) = get_markers s.
Proof.
  intros Hc. rewrite <- (get_markers_fuel_irrelevant s 1).
  unfold get_markers. rewrite search_snoc by assumption.
  destruct (search s 0) as [mt| |]; cbn [bind]; try reflexivity.
  rewrite length_app. cbn [length].
  apply get_markers_loop_snoc. assumption.
Qed.

Lemma slice_app_l (s t : str) (a b : Z) :
  0 <= a -> a <= b -> b <= len s -> slice (s ++ t) a b = slice s a b.
Proof.
  intros Ha Hab Hb. unfold slice, adjust_index. rewrite len_app.
  pose proof (len_nonneg t) as Ht.
  destruct (Z.ltb_spec a 0) as [?|_]; [lia|].
  destruct (Z.ltb_spec b 0) as [?|_]; [lia|].
  rewrite !Z.min_l by lia.
  rewrite skipn_app, firstn_app, length_skipn.
  replace (Z.to_nat (b - a) - (length s - Z.to_nat a))%nat with O
    by (unfold len in *; lia).
  cbn [firstn]. apply app_nil_r.
Qed.

Lemma data_app_l (s t : str) (m : Marker) :
  marker_ok s 0 m -> in_bounds s m = true -> data (s ++ t) m = data s m.
Proof.
  intros (H1 & H2 & H3 & H4 & H5) Hb. apply Z.leb_le in Hb.
  unfold data. apply slice_app_l; lia.
Qed.

Lemma fold_part2_step_Raise (rec : str -> result Z) (s : str)
    (ms : list Marker) (acc : result Z) :
  (forall a, acc <> Ok a) -> fold_left (part2_step rec s) ms acc = acc.
Proof.
  revert acc. induction ms as [|m ms IH]; intros acc H; cbn [fold_left];
    [reflexivity|].
  destruct acc as [a| |]; [exfalso; exact (H a eq_refl) | |];
    (rewrite IH; [reflexivity | cbn; discriminate]).
Qed.

(** The [for] loop is linear in the total it starts from. *)
Lemma fold_part2_step_shift (rec : str -> result Z) (s : str) (k : Z)
    (ms : list Marker) :
  forall a,
    fold_left (part2_step rec s) ms (Ok (a + k)) =
    (n <- fold_left (part2_step rec s) ms (Ok a) ;; Ok (n + k)).
Proof.
  induction ms as [|m ms IH]; intros a; cbn [fold_left]; [reflexivity|].
  unfold part2_step at 2 4. cbn [bind].
  destruct (rec (data s m)) as [r|e|]; cbn [bind].
  - replace (a + k + n_reps m * r - (n_chars m + Marker_length m))
      with (a + n_reps m * r - (n_chars m + Marker_length m) + k) by lia.
    apply IH.
  - rewrite !fold_part2_step_Raise by discriminate. reflexivity.
  - rewrite !fold_part2_step_Raise by discriminate. reflexivity.
Qed.

(** The [for] loop reads the string only through the data regions. *)
Lemma fold_part2_step_data (rec : str -> result Z) (s s' : str)
    (ms : list Marker) :
  (forall m, In m ms -> data s' m = data s m) ->
  forall acc,
    fold_left (part2_step rec s') ms acc = fold_left (part2_step rec s) ms acc.
Proof.
  induction ms as [|m ms IH]; intros H acc; cbn [fold_left]; [reflexivity|].
  unfold part2_step at 2 4. rewrite (H m (or_introl eq_refl)).
  apply IH. intros m' Hin. apply H. right. exact Hin.
Qed.

(** X1: a character other than [")"] put after the end of a string leaves
    the scan as it was and counts for one in the flat length, whitespace
    included; it counts for one in the recursive length too when the data
    of every marker lies within the string. *)
Theorem trailing_character_counts (s : str) (c : ascii) :
  (c =? ")")%char = false ->
  get_markers (s ++ [c]) = get_markers s /\
  get_length_decompressed_sequence_part1 (s ++ [c]) =
    (n <- get_length_decompressed_sequence_part1 s ;; Ok (n + 1)) /\
  (forall ms, get_markers s = Ok ms -> forallb (in_bounds s) ms = true ->
     get_length_decompressed_sequence_part2 (s ++ [c]) =
     (n <- get_length_decompressed_sequence_part2 s ;; Ok (n + 1))).
Proof.
  intros Hc. pose proof (get_markers_snoc s c Hc) as Hg.
  split; [exact Hg|]. split.
  - unfold get_length_decompressed_sequence_part1. rewrite Hg.
    destruct (get_markers s) as [ms| |]; cbn [bind]; try reflexivity.
    rewrite len_app. change (len [c]) with 1. f_equal. lia.
  - intros ms Hms Hb. rewrite !part2_unfold, Hg, Hms. cbn [bind].
    rewrite len_app. change (len [c]) with 1.
    rewrite (fold_part2_step_data _ s (s ++ [c])).
    + apply fold_part2_step_shift.
    + intros m Hin. apply data_app_l.
      * exact (get_markers_marker_ok s ms m Hms Hin).
      * rewrite forallb_forall in Hb. exact (Hb m Hin).
Qed.

Lemma trailing_character_counts_witness :
  let s := py "A(2x2)BC" in
  let nl := "010"%char in
  get_markers (s ++ [nl]) = get_markers s /\
  get_length_decompressed_sequence_part1 (s ++ [nl]) = Ok 6 /\
  get_length_decompressed_sequence_part2 (s ++ [nl]) = Ok 6.
Proof.
  destruct (trailing_character_counts (py "A(2x2)BC") "010"%char eq_refl)
    as (H1 & H2 & H3).
  split; [exact H1|]. split; [exact H2|].
  apply (H3 [mkMarker 1 6 2 2]); vm_compute; reflexivity.
Defined.

(** ** A marker in front of its data *)

Lemma slice_suffix (pre d : str) :
  slice (pre ++ d) (len pre) (len pre + len d) = d.
Proof.
  unfold slice, adjust_index. rewrite len_app.
  pose proof (len_nonneg pre) as Hp. pose proof (len_nonneg d) as Hd.
  destruct (Z.ltb_spec (len pre) 0) as [?|_]; [lia|].
  destruct (Z.ltb_spec (len pre + len d) 0) as [?|_]; [lia|].
  rewrite !Z.min_l by lia.
  replace (Z.to_nat (len pre)) with (length pre) by (unfold len; lia).
  replace (Z.to_nat (len pre + len d - len pre)) with (length d)
    by (unfold len; lia).
  rewrite skipn_app, skipn_all, Nat.sub_diag. cbn [skipn app].
  apply firstn_all.
Qed.

Lemma token_then_data (g1 g2 d : str) :
  "("%char :: g1 ++ "x"%char :: g2 ++ ")"%char :: d =
  ("("%char :: g1 ++ "x"%char :: g2 ++ [")"%char]) ++ d.
Proof.
  cbn [app]. f_equal. rewrite <- app_assoc. cbn [app]. f_equal. f_equal.
  rewrite <- app_assoc. reflexivity.
Qed.

Lemma len_token (g1 g2 : str) :
  len ("("%char :: g1 ++ "x"%char :: g2 ++ [")"%char]) = 3 + len g1 + len g2.
Proof.
  rewrite len_cons, len_app, len_cons, len_app. change (len [")"%char]) with 1.
  lia.
Qed.

(** X2: a marker [(NxM)] written in front of exactly [N] characters of data
    multiplies: the flat length of the whole is [M * N], and its recursive
    length is [M] times the recursive length of the data. *)
Theorem marker_multiplies (g1 g2 d : str) :
  g1 <> [] -> g2 <> [] ->
  forallb is_digit g1 = true -> forallb is_digit g2 = true ->
  ~ too_long g1 -> ~ too_long g2 ->
  decimal g1 = len d ->
  3 + len g1 + len g2 + len d <= Platform.maxsize ->
  let s := "("%char :: g1 ++ "x"%char :: g2 ++ ")"%char :: d in
  get_length_decompressed_sequence_part1 s = Ok (decimal g2 * len d) /\
  get_length_decompressed_sequence_part2 s =
    (r <- get_length_decompressed_sequence_part2 d ;; Ok (decimal g2 * r)).
Proof.
  intros N1 N2 D1 D2 L1 L2 Hn Hmax s.
  assert (Hlen : len s = 3 + len g1 + len g2 + len d).
  { unfold s. rewrite token_then_data, len_app, len_token. reflexivity. }
  destruct (get_markers_opening_token g1 g2 d N1 N2 D1 D2) as (_ & _ & Hg).
  fold s in Hg. specialize (Hg L1 L2 ltac:(lia) ltac:(lia)).
  split.
  - unfold get_length_decompressed_sequence_part1. rewrite Hg. cbn [bind map].
    rewrite sum_cons, sum_nil.
    unfold get_length_decompressed_marker, Marker_length.
    cbn [start end_ n_chars n_reps]. rewrite Hlen, Hn. f_equal. lia.
  - rewrite part2_unfold, Hg. cbn [bind fold_left].
    unfold part2_step. cbn [bind]. unfold data, Marker_length.
    cbn [start end_ n_chars n_reps].
    replace (slice s (3 + len g1 + len g2) (3 + len g1 + len g2 + decimal g1))
      with d.
    + destruct (get_length_decompressed_sequence_part2 d) as [r| |];
        cbn [bind]; try reflexivity.
      rewrite Hlen, Hn. f_equal. lia.
    + unfold s. rewrite token_then_data, <- len_token, Hn.
      symmetry. apply slice_suffix.
Qed.

Lemma marker_multiplies_witness :
  get_length_decompressed_sequence_part1 (py "(8x2)(3x3)ABC") = Ok (2 * 8) /\
  get_length_decompressed_sequence_part2 (py "(8x2)(3x3)ABC") =
    (r <- get_length_decompressed_sequence_part2 (py "(3x3)ABC") ;; Ok (2 * r)).
Proof.
  assert (T : forall g, (length g <= 20)%nat -> ~ too_long g).
  { unfold too_long, Platform.int_max_str_digits. intros g Hg. lia. }
  apply (marker_multiplies (py "8") (py "2") (py "(3x3)ABC")).
  - discriminate.
  - discriminate.
  - vm_compute. reflexivity.
  - vm_compute. reflexivity.
  - apply T. vm_compute. lia.
  - apply T. vm_compute. lia.
  - vm_compute. reflexivity.
  - vm_compute. discriminate.
Defined.

(** ** What the scan finds and what it leaves *)

Lemma enumerates_count (s : str) (p : Z) (ms : list Marker) :
  enumerates s p ms -> 0 <= p ->
  5 * Z.of_nat (length ms) <= Z.max 0 (len s - p).
Proof.
  induction 1 as [p Hs | p mt m ms Hs Hm He IH]; intros Hp.
  - cbn [length]. lia.
  - pose proof (found_marker_ok s p mt m Hp Hs Hm) as (H1 & H2 & H3 & H4 & H5).
    specialize (IH ltac:(lia)). cbn [length]. lia.
Qed.

(** X3: a scan returns at most one marker for every five characters of the
    string. *)
Theorem get_markers_count (s : str) (ms : list Marker) :
  get_markers s = Ok ms -> 5 * Z.of_nat (length ms) <= len s.
Proof.
  intros Hg. apply get_markers_enumerates in Hg.
  pose proof (enumerates_count s 0 ms Hg ltac:(lia)) as H.
  pose proof (len_nonneg s). lia.
Qed.

Lemma get_markers_count_witness :
  5 * Z.of_nat (length [mkMarker 1 6 2 2; mkMarker 9 14 2 2])
  <= len (py "A(2x2)BCD(2x2)EFG").
Proof.
  apply (get_markers_count (py "A(2x2)BCD(2x2)EFG")). vm_compute. reflexivity.
Defined.

Lemma token_at_token_here (s : str) (mt : Match) :
  token_at s mt -> token_here (skipn (Z.to_nat (match_start mt)) s).
Proof.
  intros (_ & _ & N1 & N2 & D1 & D2 & rest & Hr).
  exists (group1 mt), (group2 mt), rest. auto.
Qed.

Lemma enumerates_starts (s : str) (p : Z) (ms : list Marker) :
  enumerates s p ms ->
  Forall (fun m => token_here (skipn (Z.to_nat (start m)) s)) ms.
Proof.
  induction 1 as [p Hs | p mt m ms Hs Hm He IH]; constructor; [|exact IH].
  pose proof (Marker_of_match_Ok mt m Hm) as Hval. subst m. cbn [start].
  exact (token_at_token_here s mt (search_token_at s p mt Hs)).
Qed.

(** X4: the scan finds every marker it is meant to find and nothing else.
    At an offset that lies neither inside the token nor inside the data
    region of a returned marker, a marker token opens exactly when a
    returned marker starts there. *)
Theorem get_markers_complete (s : str) (ms : list Marker) (j : Z) :
  get_markers s = Ok ms -> 0 <= j ->
  Forall (fun m => j <= start m \/ end_ m + n_chars m <= j) ms ->
  (token_here (skipn (Z.to_nat j) s) <-> Exists (fun m => start m = j) ms).
Proof.
  intros Hg Hj Hout. apply get_markers_enumerates in Hg. split.
  - intros Htok.
    destruct (Exists_dec (fun m => start m = j) ms
                (fun m => Z.eq_dec (start m) j)) as [Hex|Hnex]; [exact Hex|].
    exfalso. apply (enumerates_leftmost s 0 ms Hg ltac:(lia) j Hj); [|exact Htok].
    rewrite Forall_forall in *. intros m Hin.
    destruct (Hout m Hin) as [Hle|Hge]; [|right; exact Hge].
    left. destruct (Z.eq_dec (start m) j) as [Heq|Hne]; [|lia].
    exfalso. apply Hnex. apply Exists_exists. exists m. auto.
  - intros Hex. apply Exists_exists in Hex. destruct Hex as (m & Hin & <-).
    pose proof (enumerates_starts s 0 ms Hg) as Hst.
    rewrite Forall_forall in Hst. exact (Hst m Hin).
Qed.

Lemma get_markers_complete_witness :
  let s := py "(6x1)(1x3)A(1x2)B" in
  (token_here (skipn 11 s) <->
   Exists (fun m => start m = 11) [mkMarker 0 5 6 1; mkMarker 11 16 1 2]).
Proof.
  apply (get_markers_complete (py "(6x1)(1x3)A(1x2)B")
           [mkMarker 0 5 6 1; mkMarker 11 16 1 2] 11).
  - vm_compute. reflexivity.
  - lia.
  - repeat constructor; cbn; lia.
Defined.

Lemma no_token_search_from (t : str) (i : Z) :
  (forall k : nat, ~ token_here (skipn k t)) -> search_from t i = None.
Proof.
  intros H. destruct (search_from t i) as [mt|] eqn:Hs; [|reflexivity].
  exfalso. destruct (search_from_token t i mt Hs) as (k & _ & Hh).
  apply (H k). apply (match_here_iff _ (match_start mt)). exists mt. exact Hh.
Qed.

(** X5: the scan returns no marker exactly when no offset of the string
    opens a marker token; then, and so for every string without ["("], both
    calculators return the length of the string. *)
Theorem no_token_no_marker (s : str) :
  ((forall k : nat, ~ token_here (skipn k s)) <-> get_markers s = Ok []) /\
  (~ In "("%char s ->
   get_length_decompressed_sequence_part1 s = Ok (len s) /\
   get_length_decompressed_sequence_part2 s = Ok (len s)).
Proof.
  assert (Hiff : (forall k : nat, ~ token_here (skipn k s)) <->
                 get_markers s = Ok []).
  { split.
    - intros H. unfold get_markers. rewrite search_0.
      rewrite (no_token_search_from s 0 H). cbn [bind].
      apply get_markers_loop_None.
    - intros Hg k. apply get_markers_enumerates in Hg.
      inversion Hg as [p Hs|]; subst.
      pose proof (search_None s 0 ltac:(lia) Hs (Z.of_nat k) ltac:(lia)) as Hn.
      rewrite Nat2Z.id in Hn. exact Hn. }
  split; [exact Hiff|].
  intros Hno.
  assert (Hg : get_markers s = Ok []).
  { apply Hiff. intros k (g1 & g2 & rest & _ & _ & _ & _ & Hk).
    apply Hno. rewrite <- (firstn_skipn k s). apply in_or_app. right.
    rewrite Hk. left. reflexivity. }
  split.
  - unfold get_length_decompressed_sequence_part1. rewrite Hg. reflexivity.
  - rewrite part2_unfold, Hg. reflexivity.
Qed.

Lemma no_token_no_marker_witness :
  get_length_decompressed_sequence_part1 (py "ADVENT 1x5)") = Ok 11 /\
  get_length_decompressed_sequence_part2 (py "ADVENT 1x5)") = Ok 11.
Proof.
  apply (proj2 (no_token_no_marker (py "ADVENT 1x5)"))).
  intros H. vm_compute in H. intuition discriminate.
Defined.

(** ** Lengths against the decompressed text *)

Example decompress_part1_docstring :
  decompress_part1 (py "ADVENT") = py "ADVENT" /\
  decompress_part1 (py "A(1x5)BC") = py "ABBBBBC" /\
  decompress_part1 (py "(3x3)XYZ") = py "XYZXYZXYZ" /\
  decompress_part1 (py "A(2x2)BCD(2x2)EFG") = py "ABCBCDEFEFG" /\
  decompress_part1 (py "(6x1)(1x3)A") = py "(1x3)A" /\
  decompress_part1 (py "X(8x2)(3x3)ABCY") = py "X(3x3)ABC(3x3)ABCY".
Proof. repeat split; vm_compute; reflexivity. Qed.

(** Whitespace is left out of the decompressed text, while the calculators
    count it. *)
Example decompress_ignores_whitespace :
  decompress_part1 (py "A(2x2)BC" ++ ["010"%char]) = py "ABCBC" /\
  get_length_decompressed_sequence_part1 (py "A(2x2)BC" ++ ["010"%char])
  = Ok 6.
Proof. split; vm_compute; reflexivity. Qed.

Example decompress_part2_docstring :
  decompress_part2 (py "(3x3)XYZ") = py "XYZXYZXYZ" /\
  decompress_part2 (py "X(8x2)(3x3)ABCY") = py "XABCABCABCABCABCABCY".
Proof. repeat split; vm_compute; reflexivity. Qed.

Lemma len_repeat_str (n : nat) (d : str) :
  len (repeat_str n d) = Z.of_nat n * len d.
Proof.
  induction n as [|n IH]; cbn [repeat_str].
  - reflexivity.
  - rewrite len_app, IH. lia.
Qed.

(** The offset given to [match_here] only moves the positions reported. *)
Lemma match_here_at_0 (s : str) (i : Z) :
  match_here s 0 =
  match match_here s i with
  | Some mt => Some (mkMatch 0 (match_end mt - i) (group1 mt) (group2 mt))
  | None => None
  end.
Proof.
  destruct (match_here s i) as [mt|] eqn:Hm.
  - destruct (match_here_token_at s i mt Hm)
      as (Hs & He & N1 & N2 & D1 & D2 & rest & ->).
    rewrite (match_here_token _ _ rest 0 N1 N2 D1 D2). do 2 f_equal. lia.
  - destruct (match_here s 0) as [mt0|] eqn:H0; [|reflexivity].
    exfalso. apply (match_here_None s i Hm).
    apply (match_here_iff s 0). exists mt0. exact H0.
Qed.

Section Walk.

Variable rec : str -> str.

(** Up to the first token the text is copied. *)
Lemma decompress_walk_literal (t : str) :
  forall (fuel : nat) (i : Z) (mt : Match),
    search_from t i = Some mt -> (length t <= fuel)%nat ->
    exists fuel',
      (length (skipn (Z.to_nat (match_start mt - i)) t) <= fuel')%nat /\
      decompress_walk rec fuel t =
      firstn (Z.to_nat (match_start mt - i)) t ++
      decompress_walk rec fuel' (skipn (Z.to_nat (match_start mt - i)) t) /\
      match_here (skipn (Z.to_nat (match_start mt - i)) t) (match_start mt)
      = Some mt.
Proof.
  induction t as [|c t IH]; intros fuel i mt; cbn [search_from].
  - cbn. discriminate.
  - destruct (match_here (c :: t) i) as [mt'|] eqn:Hm.
    + intros H Hf; inversion H; subst mt'.
      destruct (match_here_spec _ _ _ Hm) as (Hs & _).
      exists fuel. rewrite Hs, Z.sub_diag. cbn [Z.to_nat skipn firstn app].
      auto.
    + intros H Hf. destruct fuel as [|fuel]; [cbn [length] in Hf; lia|].
      cbn [length] in Hf.
      destruct (search_from_spec _ _ _ H) as (Hi & _).
      destruct (IH fuel (i + 1) mt H ltac:(lia)) as (fuel' & Hf' & Hw & Hh).
      replace (Z.to_nat (match_start mt - i))
        with (S (Z.to_nat (match_start mt - (i + 1)))) by lia.
      exists fuel'. cbn [skipn firstn app]. split; [exact Hf'|].
      split; [|exact Hh].
      cbn [decompress_walk]. rewrite (match_here_at_0 (c :: t) i), Hm.
      rewrite Hw. reflexivity.
Qed.

(** A text in which no token opens is copied. *)
Lemma decompress_walk_none (t : str) :
  forall (fuel : nat) (i : Z),
    search_from t i = None -> (length t <= fuel)%nat ->
    decompress_walk rec fuel t = t.
Proof.
  induction t as [|c t IH]; intros fuel i Hn Hf.
  - destruct fuel; reflexivity.
  - cbn [search_from] in Hn.
    destruct (match_here (c :: t) i) eqn:Hm; [discriminate|].
    destruct fuel as [|fuel]; [cbn [length] in Hf; lia|].
    cbn [length] in Hf. cbn [decompress_walk].
    rewrite (match_here_at_0 (c :: t) i), Hm.
    rewrite (IH fuel (i + 1) Hn) by lia. reflexivity.
Qed.

(** At a token, the data is repeated and reading goes on after it. *)
Lemma decompress_walk_marker (u : str) (fuel : nat) (i : Z) (mt : Match) :
  match_here u i = Some mt -> (length u <= fuel)%nat ->
  exists fuel',
    fuel = S fuel' /\
    decompress_walk rec fuel u =
    repeat_str (Z.to_nat (decimal (group2 mt)))
      (rec (firstn (Z.to_nat (decimal (group1 mt)))
                   (skipn (Z.to_nat (match_end mt - i)) u)))
    ++ decompress_walk rec fuel'
         (skipn (Z.to_nat (decimal (group1 mt)))
                (skipn (Z.to_nat (match_end mt - i)) u)).
Proof.
  intros Hm Hf. destruct u as [|c t]; [cbn in Hm; discriminate|].
  destruct fuel as [|fuel']; [cbn [length] in Hf; lia|].
  exists fuel'. split; [reflexivity|].
  cbn [decompress_walk]. rewrite (match_here_at_0 (c :: t) i), Hm.
  cbn [match_end group1 group2]. reflexivity.
Qed.

Lemma data_firstn (s : str) (m : Marker) :
  marker_ok s 0 m -> in_bounds s m = true ->
  data s m = firstn (Z.to_nat (n_chars m)) (skipn (Z.to_nat (end_ m)) s).
Proof.
  intros (H1 & H2 & H3 & H4 & H5) Hb. apply Z.leb_le in Hb.
  unfold data, slice, adjust_index.
  destruct (Z.ltb_spec (end_ m) 0) as [?|_]; [lia|].
  destruct (Z.ltb_spec (end_ m + n_chars m) 0) as [?|_]; [lia|].
  rewrite !Z.min_l by lia. f_equal. lia.
Qed.

(** The length of what the walk writes, marker by marker. *)
Lemma decompress_walk_enumerates (s : str) (p : Z) (ms : list Marker) :
  enumerates s p ms -> 0 <= p <= len s ->
  forallb (in_bounds s) ms = true ->
  forall fuel, (length (skipn (Z.to_nat p) s) <= fuel)%nat ->
    len (decompress_walk rec fuel (skipn (Z.to_nat p) s)) =
    len s - p +
    sum (map (fun m => n_reps m * len (rec (data s m)) - footprint m) ms).
Proof.
  induction 1 as [p Hs | p mt m ms Hs Hm He IH]; intros Hp Hb fuel Hf.
  - cbn [map]. rewrite sum_nil.
    assert (Hnone : search_from (skipn (Z.to_nat p) s) p = None).
    { revert Hs. unfold search. destruct (_ || _); [discriminate|].
      rewrite Z.min_l, Z.max_r by lia. intros H; inversion H. reflexivity. }
    rewrite (decompress_walk_none _ fuel p Hnone Hf), len_skipn.
    unfold len in *. lia.
  - pose proof (found_marker_ok s p mt m (proj1 Hp) Hs Hm)
      as (H1 & H2 & H3 & H4 & H5).
    pose proof (Marker_of_match_Ok mt m Hm) as Hval.
    cbn [forallb] in Hb. apply andb_true_iff in Hb. destruct Hb as [Hbm Hb].
    pose proof Hbm as Hbm'. apply Z.leb_le in Hbm'.
    assert (Hok : marker_ok s 0 m) by (unfold marker_ok; lia).
    assert (Hfrom : search_from (skipn (Z.to_nat p) s) p = Some mt).
    { revert Hs. unfold search. destruct (_ || _); [discriminate|].
      rewrite Z.min_l, Z.max_r by lia. intros H; inversion H. reflexivity. }
    destruct (decompress_walk_literal _ fuel p mt Hfrom Hf)
      as (fuel1 & Hf1 & Hw1 & Hh).
    destruct (decompress_walk_marker _ fuel1 _ mt Hh Hf1)
      as (fuel2 & -> & Hw2).
    rewrite Hw1, Hw2. clear Hw1 Hw2.
    assert (Hst : match_start mt = start m) by (subst m; reflexivity).
    assert (Hen : match_end mt = end_ m) by (subst m; reflexivity).
    assert (Hc : decimal (group1 mt) = n_chars m) by (subst m; reflexivity).
    assert (Hr : decimal (group2 mt) = n_reps m) by (subst m; reflexivity).
    rewrite Hst, Hen, Hc, Hr in *.
    rewrite !skipn_skipn in *.
    replace (Z.to_nat (end_ m - start m) + Z.to_nat (start m - p)
             + Z.to_nat p)%nat
      with (Z.to_nat (end_ m)) in * by lia.
    replace (Z.to_nat (n_chars m) + Z.to_nat (end_ m))%nat
      with (Z.to_nat (end_ m + n_chars m)) in * by lia.
    rewrite <- (data_firstn s m Hok Hbm).
    rewrite !len_app, len_repeat_str.
    rewrite (IH ltac:(lia) Hb fuel2).
    + cbn [map]. rewrite sum_cons.
      assert (Hlit : len (firstn (Z.to_nat (start m - p)) (skipn (Z.to_nat p) s))
                     = start m - p).
      { unfold len. rewrite length_firstn, length_skipn. unfold len in *. lia. }
      rewrite Hlit, Z2Nat.id by lia. unfold footprint, Marker_length. lia.
    + rewrite length_skipn in *. unfold len in *. lia.
Qed.

End Walk.

(** The walk takes at least one character at every step: fuel beyond the
    length of the text changes nothing. *)
Lemma decompress_walk_more_fuel (rec : str -> str) (fuel : nat) :
  forall (s : str) (k : nat),
    (length s <= fuel)%nat ->
    decompress_walk rec (fuel + k) s = decompress_walk rec fuel s.
Proof.
  induction fuel as [|fuel IH]; intros s k Hf.
  - destruct s; [|cbn [length] in Hf; lia]. destruct k; reflexivity.
  - cbn [Nat.add decompress_walk]. destruct s as [|c t]; [reflexivity|].
    cbn [length] in Hf.
    destruct (match_here (c :: t) 0) as [mt|] eqn:Hm.
    + f_equal. apply IH.
      destruct (match_here_spec _ _ _ Hm) as (_ & He & _).
      rewrite !length_skipn. cbn [length]. lia.
    + f_equal. apply IH. lia.
Qed.

Lemma decompress_walk_ext (rec1 rec2 : str -> str) (fuel : nat) :
  forall s : str,
    (forall d, (length d < length s)%nat -> rec1 d = rec2 d) ->
    decompress_walk rec1 fuel s = decompress_walk rec2 fuel s.
Proof.
  induction fuel as [|fuel IH]; intros s H; cbn [decompress_walk];
    [reflexivity|].
  destruct s as [|c t]; [reflexivity|].
  destruct (match_here (c :: t) 0) as [mt|] eqn:Hm.
  - destruct (match_here_spec _ _ _ Hm) as (_ & He & _).
    rewrite H.
    + f_equal. apply IH. intros d Hd. apply H.
      rewrite !length_skipn in Hd. lia.
    + rewrite length_firstn, length_skipn. cbn [length]. lia.
  - f_equal. apply IH. intros d Hd. apply H. cbn [length]. lia.
Qed.

(** The recursion of version two goes to shorter texts: fuel beyond the
    length of the text changes nothing. *)
Lemma decompress_part2_fuel_enough (n : nat) :
  forall (s : str) (fuel : nat),
    (length s <= n)%nat -> (length s < fuel)%nat ->
    decompress_part2_fuel fuel s = decompress_part2_fuel (S (length s)) s.
Proof.
  induction n as [|n IH]; intros s fuel Hn Hf;
    (destruct fuel as [|fuel]; [lia|]); cbn [decompress_part2_fuel];
    apply decompress_walk_ext; intros d Hd.
  - lia.
  - rewrite (IH d fuel) by lia. rewrite (IH d (length s)) by lia. reflexivity.
Qed.

Lemma ignore_whitespace_none (s : str) :
  no_whitespace s = true -> ignore_whitespace s = s.
Proof. apply forallb_filter_id. Qed.

(** X6: on a string without whitespace in which the data of every marker
    lies within the string, the flat calculator returns the length of the
    text that version one of the format, as the docstring describes it,
    decompresses the string to. *)
Theorem part1_measures_decompress_part1 (s : str) (ms : list Marker) :
  get_markers s = Ok ms -> forallb (in_bounds s) ms = true ->
  no_whitespace s = true ->
  get_length_decompressed_sequence_part1 s = Ok (len (decompress_part1 s)).
Proof.
  intros Hg Hb Hws.
  unfold get_length_decompressed_sequence_part1, decompress_part1.
  rewrite (ignore_whitespace_none s Hws). cbv zeta.
  rewrite Hg. cbn [bind]. f_equal.
  pose proof (len_nonneg s) as Hl.
  pose proof (proj1 (get_markers_enumerates s ms) Hg) as He.
  pose proof (decompress_walk_enumerates (fun d => d) s 0 ms He
                ltac:(lia) Hb (length s) ltac:(cbn [Z.to_nat skipn]; lia)) as Hw.
  cbn [Z.to_nat skipn] in Hw. rewrite Hw.
  rewrite (sum_map_ext get_length_decompressed_marker
             (fun m => n_reps m * len (data s m) - footprint m)); [lia|].
  intros m Hin. rewrite forallb_forall in Hb.
  rewrite (data_in_bounds s 0 m ltac:(lia)
             (get_markers_marker_ok s ms m Hg Hin) (Hb m Hin)).
  rewrite delta_footprint. lia.
Qed.

Lemma part1_measures_decompress_part1_witness :
  get_length_decompressed_sequence_part1 (py "A(2x2)BCD(2x2)EFG") =
  Ok (len (decompress_part1 (py "A(2x2)BCD(2x2)EFG"))).
Proof.
  apply (part1_measures_decompress_part1 (py "A(2x2)BCD(2x2)EFG")
           [mkMarker 1 6 2 2; mkMarker 9 14 2 2]); vm_compute; reflexivity.
Defined.

Lemma well_formed_fuel_decompress (fuel : nat) :
  forall s : str, well_formed_fuel fuel s = true ->
    get_length_decompressed_sequence_part2 s =
    Ok (len (decompress_part2_fuel fuel s)).
Proof.
  induction fuel as [|fuel IH]; intros s Hwf; cbn [well_formed_fuel] in Hwf;
    [discriminate|].
  destruct (get_markers s) as [ms| |] eqn:Hg; try discriminate.
  pose proof (forallb_in_bounds _ _ _ Hwf) as Hb.
  rewrite forallb_forall in Hwf.
  rewrite part2_unfold, Hg. cbn [bind decompress_part2_fuel].
  rewrite (fold_part2_step_exact _ s
             (fun m => len (decompress_part2_fuel fuel (data s m)))).
  - f_equal. pose proof (len_nonneg s) as Hl.
    pose proof (proj1 (get_markers_enumerates s ms) Hg) as He.
    pose proof (decompress_walk_enumerates (decompress_part2_fuel fuel) s 0 ms
                  He ltac:(lia) Hb (length s)
                  ltac:(cbn [Z.to_nat skipn]; lia)) as Hw.
    cbn [Z.to_nat skipn] in Hw. rewrite Hw. lia.
  - intros m Hin. specialize (Hwf m Hin). apply andb_true_iff in Hwf.
    apply IH. apply Hwf.
Qed.

(** X7: on a string without whitespace in which the data of every marker
    lies within the sequence the marker is found in, at every level of
    nesting, the recursive calculator returns the length of the text that
    version two of the format, as the docstring describes it, decompresses
    the string to. *)
Theorem part2_measures_decompress_part2 (s : str) :
  well_formed s = true -> no_whitespace s = true ->
  get_length_decompressed_sequence_part2 s = Ok (len (decompress_part2 s)).
Proof.
  intros Hwf Hws. unfold decompress_part2.
  rewrite (ignore_whitespace_none s Hws). cbv zeta.
  apply well_formed_fuel_decompress. exact Hwf.
Qed.

Lemma part2_measures_decompress_part2_witness :
  get_length_decompressed_sequence_part2 (py "X(8x2)(3x3)ABCY") =
  Ok (len (decompress_part2 (py "X(8x2)(3x3)ABCY"))).
Proof.
  apply (part2_measures_decompress_part2 (py "X(8x2)(3x3)ABCY"));
    vm_compute; reflexivity.
Defined.

(** ** How errors travel *)





(** ** Text after a prefix *)

Lemma match_here_shift (t : str) (i k : Z) :
  match_here t (i + k) = option_map (shift_match k) (match_here t i).
Proof.
  unfold match_here. destruct t as [|c0 s1]; [reflexivity|].
  destruct (c0 =? "(")%char; [|reflexivity].
  destruct (digits s1) as [[|d1 g1] [|c1 s2]]; try reflexivity.
  destruct (c1 =? "x")%char; [|reflexivity].
  destruct (digits s2) as [[|d2 g2] [|c2 s3]]; try reflexivity.
  destruct (c2 =? ")")%char; [|reflexivity].
  cbn [option_map]. unfold shift_match. cbn [match_start match_end group1 group2].
  do 2 f_equal. lia.
Qed.

Lemma search_from_shift (t : str) :
  forall i k : Z,
    search_from t (i + k) = option_map (shift_match k) (search_from t i).
Proof.
  induction t as [|c t IH]; intros i k; cbn [search_from];
    rewrite match_here_shift; destruct (match_here _ i); cbn [option_map];
    try reflexivity.
  replace (i + k + 1) with (i + 1 + k) by lia. apply IH.
Qed.

Lemma skipn_past_prefix (pre t : str) (n : nat) :
  skipn (length pre + n) (pre ++ t) = skipn n t.
Proof.
  rewrite skipn_app, skipn_all2 by lia.
  replace (length pre + n - length pre)%nat with n by lia. reflexivity.
Qed.

(** A search that starts at or after the end of a prefix is a search in the
    rest of the string. *)
Lemma search_after_prefix (pre t : str) (q : Z) (r' : option Match) :
  0 <= q -> search (pre ++ t) (len pre + q) = Ok r' ->
  exists r, search t q = Ok r /\ r' = option_map (shift_match (len pre)) r.
Proof.
  intros Hq. unfold search. rewrite len_app.
  pose proof (len_nonneg pre) as Hp. pose proof (len_nonneg t) as Ht.
  destruct (Z.ltb_spec Platform.maxsize (len pre + q)) as [?|Hfit];
    [discriminate|].
  destruct (Z.ltb_spec (len pre + q) (- Platform.maxsize - 1)) as [?|_];
    [discriminate|].
  cbn [orb]. intros H. inversion H as [H']; clear H.
  destruct (Z.ltb_spec Platform.maxsize q) as [?|_]; [lia|].
  destruct (Z.ltb_spec q (- Platform.maxsize - 1)) as [Hneg|_];
    [rewrite maxsize_value in Hneg; lia|].
  cbn [orb]. eexists. split; [reflexivity|].
  replace (Z.max 0 (Z.min (len pre + q) (len pre + len t)))
    with (Z.max 0 (Z.min q (len t)) + len pre) by lia.
  replace (Z.to_nat (Z.max 0 (Z.min q (len t)) + len pre))
    with (length pre + Z.to_nat (Z.max 0 (Z.min q (len t))))%nat
    by (unfold len; lia).
  rewrite skipn_past_prefix. apply search_from_shift.
Qed.

Lemma Marker_of_match_shift (k : Z) (mt : Match) :
  Marker_of_match (shift_match k mt) =
  (m <- Marker_of_match mt ;; Ok (shift_marker k m)).
Proof.
  unfold Marker_of_match, shift_match. cbn [group1 group2 match_start match_end].
  destruct (int (group1 mt)) as [c| |]; cbn [bind]; try reflexivity.
  destruct (int (group2 mt)) as [r| |]; cbn [bind]; reflexivity.
Qed.

(** An enumeration that starts at or after the end of a prefix is an
    enumeration of the rest of the string, moved by the length of the
    prefix. *)
Lemma enumerates_after_prefix (pre t : str) (p : Z) (ms' : list Marker) :
  enumerates (pre ++ t) p ms' -> len pre <= p ->
  exists ms,
    enumerates t (p - len pre) ms /\ ms' = map (shift_marker (len pre)) ms.
Proof.
  induction 1 as [p Hs | p mt' m' ms' Hs Hm He IH]; intros Hp.
  - assert (Hq : 0 <= p - len pre) by lia.
    replace p with (len pre + (p - len pre)) in Hs at 1 by lia.
    destruct (search_after_prefix pre t _ _ Hq Hs) as (r & Hr & Heq).
    destruct r; [discriminate|].
    exists []. split; [apply enum_done; exact Hr | reflexivity].
  - assert (Hq : 0 <= p - len pre) by lia.
    replace p with (len pre + (p - len pre)) in Hs at 1 by lia.
    destruct (search_after_prefix pre t _ _ Hq Hs) as (r & Hr & Heq).
    destruct r as [mt|]; [|discriminate]. cbn [option_map] in Heq.
    inversion Heq; subst mt'. rewrite Marker_of_match_shift in Hm.
    destruct (Marker_of_match mt) as [m| |] eqn:Hmm; cbn [bind] in Hm;
      try discriminate.
    inversion Hm; subst m'.
    pose proof (found_marker_ok t (p - len pre) mt m Hq Hr Hmm)
      as (H1 & H2 & H3 & H4 & H5).
    cbn [shift_marker end_ n_chars] in IH.
    destruct (IH ltac:(lia)) as (ms & Hms & ->).
    exists (m :: ms). split; [|reflexivity].
    eapply enum_next; eauto.
    replace (end_ m + n_chars m) with (end_ m + len pre + n_chars m - len pre)
      by lia.
    exact Hms.
Qed.

Lemma delta_shift (k : Z) (m : Marker) :
  get_length_decompressed_marker (shift_marker k m) =
  get_length_decompressed_marker m.
Proof.
  unfold get_length_decompressed_marker, Marker_length, shift_marker.
  cbn [start end_ n_chars n_reps]. lia.
Qed.

Lemma slice_after_prefix (pre t : str) (a b : Z) :
  0 <= a -> a <= b -> slice (pre ++ t) (len pre + a) (len pre + b) = slice t a b.
Proof.
  intros Ha Hab. unfold slice, adjust_index. rewrite len_app.
  pose proof (len_nonneg pre) as Hp. pose proof (len_nonneg t) as Ht.
  destruct (Z.ltb_spec (len pre + a) 0) as [?|_]; [lia|].
  destruct (Z.ltb_spec (len pre + b) 0) as [?|_]; [lia|].
  destruct (Z.ltb_spec a 0) as [?|_]; [lia|].
  destruct (Z.ltb_spec b 0) as [?|_]; [lia|].
  replace (Z.to_nat (Z.min (len pre + a) (len pre + len t)))
    with (length pre + Z.to_nat (Z.min a (len t)))%nat by (unfold len; lia).
  rewrite skipn_past_prefix. f_equal. lia.
Qed.

Lemma data_after_prefix (pre t : str) (m : Marker) :
  marker_ok t 0 m -> data (pre ++ t) (shift_marker (len pre) m) = data t m.
Proof.
  intros (H1 & H2 & H3 & H4 & H5). unfold data, shift_marker.
  cbn [end_ n_chars].
  replace (end_ m + len pre) with (len pre + end_ m) by lia.
  replace (len pre + end_ m + n_chars m) with (len pre + (end_ m + n_chars m))
    by lia.
  apply slice_after_prefix; lia.
Qed.

Lemma fold_part2_step_after_prefix (rec : str -> result Z) (pre t : str)
    (ms : list Marker) :
  Forall (marker_ok t 0) ms ->
  forall acc,
    fold_left (part2_step rec (pre ++ t)) (map (shift_marker (len pre)) ms) acc
    = fold_left (part2_step rec t) ms acc.
Proof.
  induction 1 as [|m ms Hm Hms IH]; intros acc; cbn [map fold_left];
    [reflexivity|].
  rewrite IH. f_equal. unfold part2_step.
  rewrite (data_after_prefix pre t m Hm).
  unfold Marker_length, shift_marker. cbn [start end_ n_chars n_reps].
  destruct acc as [a| |]; cbn [bind]; try reflexivity.
  destruct (rec (data t m)) as [r| |]; cbn [bind]; try reflexivity.
  f_equal. lia.
Qed.

Lemma sum_deltas_shift (k : Z) (ms : list Marker) :
  sum (map get_length_decompressed_marker (map (shift_marker k) ms)) =
  sum (map get_length_decompressed_marker ms).
Proof.
  rewrite map_map. apply sum_map_ext. intros m _. apply delta_shift.
Qed.

Lemma search_from_literal (u t : str) :
  ~ In "("%char u ->
  forall i, search_from (u ++ t) i = search_from t (i + len u).
Proof.
  induction u as [|c u IH]; intros Hno i.
  - cbn [app]. change (len []) with 0. f_equal. lia.
  - cbn [app search_from]. unfold match_here at 1.
    destruct (c =? "(")%char eqn:Hc.
    + exfalso. apply Hno. left. apply Ascii.eqb_eq in Hc. auto.
    + rewrite IH by (intros Hin; apply Hno; right; exact Hin).
      rewrite len_cons. f_equal. lia.
Qed.

Lemma get_markers_of_enumerates_0 (t : str) (ms : list Marker) :
  enumerates t 0 ms -> get_markers t = Ok ms.
Proof. apply get_markers_enumerates. Qed.

(** The scan of a text behind a prefix without ["("]. *)
Lemma enumerates_literal_prefix (u t : str) (ms' : list Marker) :
  ~ In "("%char u -> enumerates (u ++ t) 0 ms' ->
  exists ms, enumerates t 0 ms /\ ms' = map (shift_marker (len u)) ms.
Proof.
  intros Hno He.
  assert (Hsf : search_from (u ++ t) 0
                = option_map (shift_match (len u)) (search_from t 0)).
  { rewrite (search_from_literal u t Hno 0). apply search_from_shift. }
  inversion He as [p Hs | p mt' m' rest' Hs Hm Hrest]; subst;
    rewrite search_0 in Hs; inversion Hs as [Hs']; rewrite Hsf in Hs'.
  - destruct (search_from t 0) eqn:Ht; [discriminate|].
    exists []. split; [|reflexivity]. apply enum_done. rewrite search_0, Ht.
    reflexivity.
  - destruct (search_from t 0) as [mt|] eqn:Ht; [|discriminate].
    cbn [option_map] in Hs'. inversion Hs'; subst mt'.
    rewrite Marker_of_match_shift in Hm.
    destruct (Marker_of_match mt) as [m| |] eqn:Hmm; cbn [bind] in Hm;
      try discriminate.
    inversion Hm; subst m'.
    assert (Hst : search t 0 = Ok (Some mt)) by (rewrite search_0, Ht; reflexivity).
    pose proof (found_marker_ok t 0 mt m ltac:(lia) Hst Hmm)
      as (H1 & H2 & H3 & H4 & H5).
    cbn [shift_marker end_ n_chars] in Hrest.
    destruct (enumerates_after_prefix u t _ _ Hrest ltac:(lia))
      as (ms & Hms & ->).
    exists (m :: ms). split; [|reflexivity].
    eapply enum_next; eauto.
    replace (end_ m + n_chars m) with (end_ m + len u + n_chars m - len u)
      by lia.
    exact Hms.
Qed.

(** X9: text without ["("] in front of a string is copied.  When the scan of
    the whole returns, it returns the markers of the rest moved by the length
    of the prefix, and both lengths are the lengths of the rest plus the
    length of the prefix. *)
Theorem literal_prefix_adds (u t : str) (ms' : list Marker) :
  ~ In "("%char u -> get_markers (u ++ t) = Ok ms' ->
  exists ms,
    get_markers t = Ok ms /\
    ms' = map (shift_marker (len u)) ms /\
    get_length_decompressed_sequence_part1 (u ++ t) =
      (n <- get_length_decompressed_sequence_part1 t ;; Ok (n + len u)) /\
    get_length_decompressed_sequence_part2 (u ++ t) =
      (n <- get_length_decompressed_sequence_part2 t ;; Ok (n + len u)).
Proof.
  intros Hno Hg.
  destruct (enumerates_literal_prefix u t ms' Hno
              (proj1 (get_markers_enumerates _ _) Hg)) as (ms & He & ->).
  pose proof (get_markers_of_enumerates_0 t ms He) as Ht.
  exists ms. split; [exact Ht|]. split; [reflexivity|]. split.
  - unfold get_length_decompressed_sequence_part1. rewrite Hg, Ht.
    cbn [bind]. rewrite sum_deltas_shift, len_app. f_equal. lia.
  - rewrite !part2_unfold, Hg, Ht. cbn [bind].
    rewrite fold_part2_step_after_prefix
      by (apply (enumerates_marker_ok t 0 ms He); lia).
    rewrite len_app, (Z.add_comm (len u)). apply fold_part2_step_shift.
Qed.

Lemma literal_prefix_adds_witness :
  exists ms,
    get_markers (py "(3x3)XYZ") = Ok ms /\
    [mkMarker 3 8 3 3] = map (shift_marker (len (py "ABC"))) ms /\
    get_length_decompressed_sequence_part1 (py "ABC" ++ py "(3x3)XYZ") =
      (n <- get_length_decompressed_sequence_part1 (py "(3x3)XYZ") ;;
       Ok (n + len (py "ABC"))) /\
    get_length_decompressed_sequence_part2 (py "ABC" ++ py "(3x3)XYZ") =
      (n <- get_length_decompressed_sequence_part2 (py "(3x3)XYZ") ;;
       Ok (n + len (py "ABC"))).
Proof.
  apply (literal_prefix_adds (py "ABC") (py "(3x3)XYZ") [mkMarker 3 8 3 3]).
  - intros H. vm_compute in H. intuition discriminate.
  - vm_compute. reflexivity.
Defined.

Lemma enumerates_found (s : str) (p : Z) (mt : Match) (ms : list Marker) :
  search s p = Ok (Some mt) -> enumerates s p ms ->
  exists m rest,
    Marker_of_match mt = Ok m /\ ms = m :: rest /\
    enumerates s (end_ m + n_chars m) rest.
Proof.
  intros Hs He. destruct He as [p Hn | p mt' m ms Hs' Hm He].
  - congruence.
  - assert (mt' = mt) by congruence. subst mt'. eauto.
Qed.

Lemma token_data_rest (g1 g2 d t : str) :
  ("("%char :: g1 ++ "x"%char :: g2 ++ ")"%char :: d) ++ t =
  "("%char :: g1 ++ "x"%char :: g2 ++ ")"%char :: d ++ t.
Proof.
  cbn [app]. f_equal. rewrite <- app_assoc. cbn [app]. f_equal. f_equal.
  rewrite <- app_assoc. reflexivity.
Qed.

(** X10: a marker [(NxM)] with its [N] characters of data in front of a
    string adds its own output to that of the string.  When the scan of the
    whole returns, it returns the marker and then the markers of the rest,
    moved; the flat length is [M * N] plus the flat length of the rest, and
    the recursive length is [M] times the recursive length of the data plus
    the recursive length of the rest. *)
Theorem marker_prefix_adds (g1 g2 d t : str) (ms' : list Marker) :
  g1 <> [] -> g2 <> [] ->
  forallb is_digit g1 = true -> forallb is_digit g2 = true ->
  decimal g1 = len d ->
  let e := 3 + len g1 + len g2 in
  let s := ("("%char :: g1 ++ "x"%char :: g2 ++ ")"%char :: d) ++ t in
  get_markers s = Ok ms' ->
  exists ms,
    get_markers t = Ok ms /\
    ms' = mkMarker 0 e (len d) (decimal g2)
          :: map (shift_marker (e + len d)) ms /\
    get_length_decompressed_sequence_part1 s =
      (n <- get_length_decompressed_sequence_part1 t ;;
       Ok (decimal g2 * len d + n)) /\
    get_length_decompressed_sequence_part2 s =
      (r <- get_length_decompressed_sequence_part2 d ;;
       n <- get_length_decompressed_sequence_part2 t ;;
       Ok (decimal g2 * r + n)).
Proof.
  intros N1 N2 D1 D2 Hn e s Hg.
  set (pre := "("%char :: g1 ++ "x"%char :: g2 ++ ")"%char :: d) in *.
  assert (Hpre : len pre = e + len d).
  { unfold pre. rewrite token_then_data, len_app, len_token. reflexivity. }
  pose proof (len_nonneg d) as Hd. pose proof (len_nonneg g1) as Hg1.
  pose proof (len_nonneg g2) as Hg2.
  assert (Hs0 : search s 0
                = Ok (Some (mkMatch 0 (0 + 3 + len g1 + len g2) g1 g2))).
  { rewrite search_0. f_equal. f_equal. apply search_from_here. unfold s, pre.
    rewrite token_data_rest.
    apply (match_here_token g1 g2 (d ++ t) 0); assumption. }
  pose proof (proj1 (get_markers_enumerates _ _) Hg) as He.
  destruct (enumerates_found s 0 _ ms' Hs0 He) as (m0 & rest' & Hm & -> & Hrest).
  apply Marker_of_match_Ok in Hm.
  cbn [match_start match_end group1 group2] in Hm.
  change (0 + 3 + len g1 + len g2) with e in Hm. rewrite Hn in Hm.
  assert (Hp : end_ m0 + n_chars m0 = len pre)
    by (rewrite Hm; cbn [end_ n_chars]; lia).
  rewrite Hp in Hrest.
  destruct (enumerates_after_prefix pre t _ _ Hrest ltac:(lia))
    as (ms & Hms & ->).
  rewrite Z.sub_diag in Hms. rewrite Hm in *. clear Hm.
  pose proof (get_markers_of_enumerates_0 t ms Hms) as Ht.
  exists ms. split; [exact Ht|]. rewrite Hpre.
  split; [reflexivity|]. rewrite Hpre in Hg.
  assert (Hlen : len s = e + len d + len t).
  { unfold s. rewrite len_app, Hpre. reflexivity. }
  split.
  - unfold get_length_decompressed_sequence_part1. rewrite Hg, Ht.
    cbn [bind map]. rewrite sum_cons, sum_deltas_shift.
    unfold get_length_decompressed_marker at 1, Marker_length.
    cbn [start end_ n_chars n_reps]. rewrite Hlen. f_equal. lia.
  - rewrite (part2_unfold s), (part2_unfold t), Hg, Ht. cbn [bind fold_left].
    unfold part2_step at 2. cbn [bind]. unfold data at 1, Marker_length.
    cbn [start end_ n_chars n_reps].
    replace (slice s e (e + len d)) with d.
    + destruct (get_length_decompressed_sequence_part2 d) as [r| |];
        cbn [bind].
      * replace (len s + decimal g2 * r - (len d + (e - 0)))
          with (len t + decimal g2 * r) by lia.
        rewrite <- Hpre. unfold s.
        rewrite fold_part2_step_after_prefix
          by (apply (enumerates_marker_ok t 0 ms Hms); lia).
        rewrite fold_part2_step_shift.
        destruct (fold_left _ ms (Ok (len t))) as [n| |]; cbn [bind];
          try reflexivity.
        f_equal. lia.
      * apply fold_part2_step_Raise. discriminate.
      * apply fold_part2_step_Raise. discriminate.
    + unfold s. rewrite slice_app_l by lia.
      unfold pre. rewrite token_then_data.
      replace e with (len ("("%char :: g1 ++ "x"%char :: g2 ++ [")"%char]))
        by apply len_token.
      symmetry. apply slice_suffix.
Qed.

Lemma marker_prefix_adds_witness :
  exists ms,
    get_markers (py "D(2x2)EFG") = Ok ms /\
    [mkMarker 0 5 2 2; mkMarker 8 13 2 2]
    = mkMarker 0 (3 + len (py "2") + len (py "2")) (len (py "BC"))
               (decimal (py "2"))
      :: map (shift_marker (3 + len (py "2") + len (py "2") + len (py "BC")))
             ms /\
    get_length_decompressed_sequence_part1 (py "(2x2)BC" ++ py "D(2x2)EFG") =
      (n <- get_length_decompressed_sequence_part1 (py "D(2x2)EFG") ;;
       Ok (decimal (py "2") * len (py "BC") + n)) /\
    get_length_decompressed_sequence_part2 (py "(2x2)BC" ++ py "D(2x2)EFG") =
      (r <- get_length_decompressed_sequence_part2 (py "BC") ;;
       n <- get_length_decompressed_sequence_part2 (py "D(2x2)EFG") ;;
       Ok (decimal (py "2") * r + n)).
Proof.
  apply (marker_prefix_adds (py "2") (py "2") (py "BC") (py "D(2x2)EFG")
           [mkMarker 0 5 2 2; mkMarker 8 13 2 2]).
  - discriminate.
  - discriminate.
  - vm_compute. reflexivity.
  - vm_compute. reflexivity.
  - vm_compute. reflexivity.
  - vm_compute. reflexivity.
Defined.
